(** * Stats aggregation of the e2e Allure report dashboard

    A shallow embedding of [update-stats-history.js] (the daily stats
    aggregator and its merge into [stats-history.json]), of
    [fix-stats-from-allure-data.js] (the reconciler of [.metadata] counts
    and folder names) and of the entry-building part of
    [generate-manifest.sh] (its [grep], [cut], [tr] and [sed] pipelines
    and [JSON.parse] of the string fields it writes).

    Modelling choices:
    - JSON strings are Rocq [string]s of ASCII characters; [toLowerCase]
      is the ASCII case mapping (non-ASCII case mapping is not modelled).
    - Numbers read as counts are integers ([Z]); JavaScript doubles are
      exact on them below 2^53.
    - A JavaScript object literal used as a map ([{}]) is a [gmap string _]
      of its own properties.  Reading [obj[k]] on such an object also sees
      the properties inherited from [Object.prototype]; the code is exposed
      to that wherever it tests [!obj[k]] or assigns to [obj[k]], and the
      model writes those cases out (see [js_inherited]). *)

From stdpp Require Import base list gmap strings sorting.
From Stdlib Require Import ZArith Ascii String.
Open Scope string_scope.
Open Scope Z_scope.

(* ================================================================= *)
(** ** JavaScript string helpers *)

Module JsString.

(** [String.prototype.toLowerCase] on ASCII characters. *)
Definition lower_ascii (c : ascii) : ascii :=
  let n := nat_of_ascii c in
  if Nat.leb 65 n && Nat.leb n 90 then ascii_of_nat (n + 32) else c.

Fixpoint toLowerCase (s : string) : string :=
  match s with
  | EmptyString => EmptyString
  | String c s' => String (lower_ascii c) (toLowerCase s')
  end.

Fixpoint startsWith (pre s : string) : bool :=
  match pre, s with
  | EmptyString, _ => true
  | String c p', String d s' => Ascii.eqb c d && startsWith p' s'
  | String _ _, EmptyString => false
  end.

(** [s.includes(needle)]. *)
Fixpoint includes (s needle : string) : bool :=
  startsWith needle s ||
  match s with
  | EmptyString => false
  | String _ s' => includes s' needle
  end.

(** The regex class [\d]: ASCII digits only. *)
Definition is_digit (c : ascii) : bool :=
  let n := nat_of_ascii c in Nat.leb 48 n && Nat.leb n 57.

End JsString.

(* ================================================================= *)
(** ** [parseInt] *)

Module ParseInt.
Import JsString.

(** The ASCII part of StrWhiteSpaceChar, stripped by [parseInt]. *)
Definition is_js_space (c : ascii) : bool :=
  let n := nat_of_ascii c in
  (Nat.leb 9 n && Nat.leb n 13) || Nat.eqb n 32.

Fixpoint trim_start (s : string) : string :=
  match s with
  | String c s' => if is_js_space c then trim_start s' else s
  | EmptyString => EmptyString
  end.

(** Value of [c] as a digit of the given radix (10 or 16). *)
Definition digit_value (radix : Z) (c : ascii) : option Z :=
  let n := Z.of_nat (nat_of_ascii c) in
  let v :=
    if (48 <=? n) && (n <=? 57) then Some (n - 48)
    else if (97 <=? n) && (n <=? 122) then Some (n - 87)
    else if (65 <=? n) && (n <=? 90) then Some (n - 55)
    else None in
  match v with
  | Some d => if d <? radix then Some d else None
  | None => None
  end.

(** Reads the longest prefix of radix digits; [None] when it is empty. *)
Fixpoint read_digits (radix acc : Z) (seen : bool) (s : string) : option Z :=
  match s with
  | String c s' =>
      match digit_value radix c with
      | Some d => read_digits radix (acc * radix + d) true s'
      | None => if seen then Some acc else None
      end
  | EmptyString => if seen then Some acc else None
  end.

(** [parseInt(s)] with no radix: leading white space, an optional sign,
    an optional [0x]/[0X] prefix selecting radix 16, then digits;
    [None] is NaN. *)
Definition parseInt_string (s : string) : option Z :=
  let t := trim_start s in
  let '(sign, t) :=
    match t with
    | String "-" r => (-1, r)
    | String "+" r => (1, r)
    | _ => (1, t)
    end%Z in
  let '(radix, t) :=
    match t with
    | String "0" (String "x" r) => (16, r)
    | String "0" (String "X" r) => (16, r)
    | _ => (10, t)
    end%Z in
  option_map (Z.mul sign) (read_digits radix 0 false t).

End ParseInt.

(* ================================================================= *)
(** ** The manifest and the history log *)

(** A JSON value in a count field of a manifest record ([passed],
    [failed]); the generator writes numbers, hand-written manifests may
    hold strings. *)
Inductive jval :=
| JUndefined
| JNull
| JBool (b : bool)
| JNum (z : Z)
| JStr (s : string).

(** [parseInt(v)]: [v] is first converted with [String(v)]; an integer
    number prints as its decimal digits. *)
Definition js_parseInt (v : jval) : option Z :=
  match v with
  | JUndefined => ParseInt.parseInt_string "undefined"
  | JNull => ParseInt.parseInt_string "null"
  | JBool true => ParseInt.parseInt_string "true"
  | JBool false => ParseInt.parseInt_string "false"
  | JNum z => Some z
  | JStr s => ParseInt.parseInt_string s
  end.

(** [parseInt(v) || 0]: NaN (and [-0]) give [0]. *)
Definition parseIntOrZero (v : jval) : Z :=
  match js_parseInt v with Some z => z | None => 0%Z end.

(** One entry of [manifest.json].  [timestamp], [environment] and [job]
    are strings, or absent ([None]); the fields the aggregator never reads
    ([branch], [pipelineUrl], ...) are left out. *)
Record ReportRecord := mkReport {
  timestamp : option string;
  environment : option string;
  job : option string;
  passed : jval;
  failed : jval
}.

Record DailyStat := mkStat { runs : Z; spassed : Z; sfailed : Z }.

(** One element of [entries].  The [platforms] and [environments] objects
    are modelled as maps from tag to counters: the key order that
    [JSON.stringify] writes (the insertion order of the tags) is not kept,
    so equal [DayEntry]s may be written with their tags in different orders. *)
Record DayEntry := mkDay {
  date : string;
  totals : DailyStat;
  platforms : gmap string DailyStat;
  environments : gmap string DailyStat
}.

(** [stats-history.json] as read back: [HAbsent] when the file does not
    exist, [HUnparseable] when [JSON.parse] throws, [HParsed None] when it
    parses to a value without an [entries] array (so that
    [history.entries.length] throws inside the same [try]), and
    [HParsed (Some es)] when it parses to [{lastUpdated, entries: es}]. *)
Inductive HistoryFile :=
| HAbsent
| HUnparseable
| HParsed (entries : option (list DayEntry)).

(** [reports/manifest.json]: absent, or the parsed array of records. *)
Inductive ManifestFile :=
| MAbsent
| MPresent (records : list ReportRecord).

Record History := mkHistory {
  lastUpdated : option string;
  entries : list DayEntry
}.

(** The console output of the script. *)
Inductive LogLine :=
| LManifestNotFound
| LReadManifest (n : nat)
| LExistingHistory (n : nat)
| LCouldNotParseHistory
| LUpdated (n : nat)
| LDateRange (first last : string)
| LHistorySpan (first last : string).

(** [Fatal] is [process.exit(1)]; [Written h] is the history written to
    [stats-history.json]. *)
Inductive Outcome :=
| Fatal
| Written (h : History).

(* ================================================================= *)
(** ** Classifiers *)

Module Classify.
Import JsString.

(** [detectPlatform(job)]. *)
Definition detectPlatform (job : option string) : string :=
  let j := toLowerCase (default "" job) in
  if includes j "android" then "android"
  else if includes j "ios" then "ios"
  else if includes j "browser" || includes j "desktop" || includes j "responsive"
  then "browser"
  else "other".

(** [normalizeEnv(env)]; [e || 'unknown'] picks ['unknown'] for [""]. *)
Definition normalizeEnv (env : option string) : string :=
  let e := toLowerCase (default "" env) in
  if includes e "sandbox" then "sandbox"
  else if includes e "staging" then "staging"
  else if includes e "flux" then "flux"
  else if includes e "local" then "local"
  else if String.eqb e "" then "unknown" else e.

(** The regex [/^(\d{4}-\d{2}-\d{2})/] at the start of [s]. *)
Definition date_prefix_ok (s : string) : bool :=
  match s with
  | String y1 (String y2 (String y3 (String y4 (String h1
      (String m1 (String m2 (String h2 (String d1 (String d2 _))))))))) =>
      is_digit y1 && is_digit y2 && is_digit y3 && is_digit y4 &&
      Ascii.eqb h1 "-" && is_digit m1 && is_digit m2 &&
      Ascii.eqb h2 "-" && is_digit d1 && is_digit d2
  | _ => false
  end.

(** [extractDate(timestamp)]. *)
Definition extractDate (ts : option string) : option string :=
  match ts with
  | None => None
  | Some s =>
      if String.eqb s "" then None
      else if date_prefix_ok s then Some (substring 0 10 s) else None
  end.

End Classify.

(* ================================================================= *)
(** ** The aggregator [update-stats-history.js] *)

Module Stats.
Import Classify.

(** Names of the properties of [Object.prototype]: [obj[k]] on an object
    literal finds them although [obj] has no own property [k]. *)
Definition object_prototype_props : list string :=
  ["constructor"; "__proto__"; "hasOwnProperty"; "isPrototypeOf";
   "propertyIsEnumerable"; "toString"; "toLocaleString"; "valueOf";
   "__defineGetter__"; "__defineSetter__"; "__lookupGetter__";
   "__lookupSetter__"].

Definition js_inherited (k : string) : bool :=
  existsb (String.eqb k) object_prototype_props.

Definition zero_stat : DailyStat := mkStat 0 0 0.

(** [s.runs++; s.passed += p; s.failed += f]. *)
Definition add_to_stat (s : DailyStat) (p f : Z) : DailyStat :=
  mkStat (runs s + 1) (spassed s + p) (sfailed s + f).

(** [if (!obj[k]) obj[k] = {runs:0, passed:0, failed:0};] followed by the
    three updates of [obj[k]], on an object literal [obj] with own
    properties [m].  When [k] is inherited from [Object.prototype]
    ([constructor], [__proto__]), [obj[k]] is truthy, no own property is
    created and the updates land on the inherited object ([Object] or
    [Object.prototype]), which is not part of [obj]'s serialisation. *)
Definition bump (k : string) (p f : Z) (m : gmap string DailyStat)
  : gmap string DailyStat :=
  match m !! k with
  | Some s => <[k := add_to_stat s p f]> m
  | None => if js_inherited k then m else <[k := add_to_stat zero_stat p f]> m
  end.

Definition new_day (d : string) : DayEntry := mkDay d zero_stat ∅ ∅.

(** The body of [manifest.forEach] once [day] is found, lines 85-120. *)
Definition add_record (day : DayEntry) (r : ReportRecord) : DayEntry :=
  let platform := detectPlatform (job r) in
  let env := normalizeEnv (environment r) in
  let p := parseIntOrZero (passed r) in
  let f := parseIntOrZero (failed r) in
  mkDay (date day) (add_to_stat (totals day) p f)
    (bump platform p f (platforms day)) (bump env p f (environments day)).

(** One step of [manifest.forEach] on [newDataByDate].  Its keys match
    [\d{4}-\d{2}-\d{2}], never an [Object.prototype] property, so
    [!newDataByDate[date]] is an own-property test. *)
Definition aggregate_step (m : gmap string DayEntry) (r : ReportRecord)
  : gmap string DayEntry :=
  match extractDate (timestamp r) with
  | None => m
  | Some d => <[d := add_record (default (new_day d) (m !! d)) r]> m
  end.

(** [newDataByDate] after the loop over the manifest. *)
Definition aggregate (manifest : list ReportRecord) : gmap string DayEntry :=
  fold_left aggregate_step manifest ∅.

(** [existingMap[entry.date] = entry].  Assigning to the key [__proto__]
    runs the [Object.prototype.__proto__] setter, which replaces the
    prototype of [existingMap] and creates no own property; every other
    key, inherited or not, becomes an own property. *)
Definition set_existing (m : gmap string DayEntry) (e : DayEntry)
  : gmap string DayEntry :=
  if String.eqb (date e) "__proto__" then m else <[date e := e]> m.

Definition existing_map (prior : list DayEntry) : gmap string DayEntry :=
  fold_left set_existing prior ∅.

(** [Object.keys(newDataByDate).forEach(d => existingMap[d] = newDataByDate[d])]:
    every key of the new map overwrites. *)
Definition merge (existing fresh : gmap string DayEntry) : gmap string DayEntry :=
  fresh ∪ existing.

(** [Object.keys(m).sort()]: the default comparator orders strings by
    code units. *)
Definition sorted_keys {A} (m : gmap string A) : list string :=
  merge_sort String.le (map fst (map_to_list m)).

(** [Object.keys(m).sort().map(d => m[d])]. *)
Definition merged_entries (m : gmap string DayEntry) : list DayEntry :=
  omap (fun k => m !! k) (sorted_keys m).

(** Lines 60-70: the prior entries and the console lines. *)
Definition read_history (hist : HistoryFile) : list DayEntry * list LogLine :=
  match hist with
  | HAbsent => ([], [])
  | HUnparseable => ([], [LCouldNotParseHistory])
  | HParsed None => ([], [LCouldNotParseHistory])
  | HParsed (Some es) => (es, [LExistingHistory (List.length es)])
  end.

(** [main()]; [now] is [new Date().toISOString()]. *)
Definition main (man : ManifestFile) (hist : HistoryFile) (now : string)
  : Outcome * list LogLine :=
  match man with
  | MAbsent => (Fatal, [LManifestNotFound])
  | MPresent manifest =>
      let '(prior, hlog) := read_history hist in
      let existingMap := existing_map prior in
      let newDataByDate := aggregate manifest in
      let mergedEntries := merged_entries (merge existingMap newDataByDate) in
      let newDates := sorted_keys newDataByDate in
      let summary :=
        (match newDates with
        | [] => []
        | d0 :: _ => [LDateRange d0 (List.last newDates d0)]
        end ++
        match mergedEntries with
        | [] => []
        | e0 :: _ => [LHistorySpan (date e0) (date (List.last mergedEntries e0))]
        end)%list in
      (Written (mkHistory (Some now) mergedEntries),
       [LReadManifest (List.length manifest)] ++ hlog ++
       [LUpdated (List.length mergedEntries)] ++ summary)%list
  end.

(** The entries written by a run, if it writes. *)
Definition written_entries (o : Outcome * list LogLine) : option (list DayEntry) :=
  match fst o with Written h => Some (entries h) | Fatal => None end.

(** [stats-history.json] after a run that started from [hist]. *)
Definition history_after (o : Outcome * list LogLine) (hist : HistoryFile)
  : HistoryFile :=
  match fst o with Written h => HParsed (Some (entries h)) | Fatal => hist end.

(** The entry of [es] for date [d]. *)
Definition entry_for (d : string) (es : list DayEntry) : option DayEntry :=
  find (fun e => String.eqb (date e) d) es.

End Stats.

(* ================================================================= *)
(** ** [countFromSummary] of [fix-stats-from-allure-data.js] *)

Module Reconcile.

(** [summary.statistic] of [widgets/summary.json]; a missing count is
    [None].  Allure writes the counts as JSON numbers. *)
Record Statistic := mkStatistic {
  st_passed : option Z;
  st_failed : option Z;
  st_broken : option Z;
  st_skipped : option Z;
  st_unknown : option Z
}.

(** [widgets/summary.json]: absent, not parseable (or parsing to a value
    whose [.statistic] throws), or parsed with [statistic] (absent:
    [None]). *)
Inductive SummaryFile :=
| SAbsent
| SUnparseable
| SParsed (statistic : option Statistic).

Record Detail := mkDetail {
  d_passed : Z; d_failed : Z; d_broken : Z; d_skipped : Z; d_unknown : Z
}.

Record Counts := mkCounts {
  c_passed : Z;
  c_failed : Z;
  c_total : Z;
  c_detail : Detail
}.

(** [countFromSummary(reportDir)]; [x || 0] on a number is [x], on a
    missing field [0]. *)
Definition countFromSummary (file : SummaryFile) : option Counts :=
  match file with
  | SAbsent => None
  | SUnparseable => None
  | SParsed None => None
  | SParsed (Some stat) =>
      let passed := default 0 (st_passed stat) in
      let failed := default 0 (st_failed stat) in
      let broken := default 0 (st_broken stat) in
      let skipped := default 0 (st_skipped stat) in
      let unknown := default 0 (st_unknown stat) in
      Some (mkCounts passed (failed + broken) (passed + failed + broken)
              (mkDetail passed failed broken skipped unknown))
  end.

End Reconcile.



(* ================================================================= *)
(** ** The reconciler loop of [fix-stats-from-allure-data.js] *)

Module FixStats.
Import JsString Reconcile.

(** [String(n)] of an integer: decimal digits, ["-"] before a negative. *)
Definition digit_char (d : Z) : ascii := ascii_of_nat (Z.to_nat (48 + d)).

Fixpoint pos_digits (fuel : nat) (n : Z) (acc : string) : string :=
  match fuel with
  | O => acc
  | S fuel' =>
      let acc' := String (digit_char (n mod 10)) acc in
      if Z.eqb (n / 10) 0 then acc' else pos_digits fuel' (n / 10) acc'
  end.

Definition nat_to_string (n : Z) : string :=
  pos_digits (S (Z.to_nat (Z.log2 n))) n "".

Definition z_to_string (z : Z) : string :=
  if z <? 0 then String "-" (nat_to_string (- z)) else nat_to_string z.

(** [statusTag(passed, failed)]. *)
Definition statusTag (passed failed : Z) : string :=
  if 0 <? failed
  then z_to_string passed ++ "passed_" ++ z_to_string failed ++ "failed"
  else z_to_string passed ++ "passed".

(** *** The [.metadata] text *)

(** The line terminators of a JavaScript regex ([.] stops at them, [^]
    and [$] under the [m] flag match next to them) among the ASCII
    characters; the other two, U+2028 and U+2029, are not ASCII and are
    not recognised here, so the model's lines are the JavaScript lines of
    ASCII text only. *)
Definition is_line_terminator (c : ascii) : bool :=
  Ascii.eqb c "010" || Ascii.eqb c "013".

(** A text cut at each line terminator: the lines, each with the
    terminator that ends it ([None] for the last line). *)
Fixpoint lines_of (s : string) : list (string * option ascii) :=
  match s with
  | EmptyString => [("", None)]
  | String c s' =>
      if is_line_terminator c then ("", Some c) :: lines_of s'
      else match lines_of s' with
           | (l, t) :: rest => (String c l, t) :: rest
           | [] => [(String c "", None)]
           end
  end.

Fixpoint unlines (ls : list (string * option ascii)) : string :=
  match ls with
  | [] => ""
  | (l, None) :: rest => l ++ unlines rest
  | (l, Some c) :: rest => l ++ String c (unlines rest)
  end.

Fixpoint drop_prefix (pre s : string) : string :=
  match pre, s with
  | String _ p', String _ s' => drop_prefix p' s'
  | _, _ => s
  end.

(** The capture group of the regex [^KEY] then a group of [.*] then [$],
    flag [m]: the rest of the first line that starts with [key]. *)
Fixpoint find_line (key : string) (ls : list (string * option ascii))
  : option string :=
  match ls with
  | [] => None
  | (l, _) :: rest =>
      if startsWith key l then Some (drop_prefix key l) else find_line key rest
  end.

(** [/^KEY.*$/m] replaced by [KEY + v]: the first such line only. *)
Fixpoint replace_line (key v : string) (ls : list (string * option ascii))
  : list (string * option ascii) :=
  match ls with
  | [] => []
  | (l, t) :: rest =>
      if startsWith key l then (key ++ v, t) :: rest
      else (l, t) :: replace_line key v rest
  end.

(** [content.match(re)[1]] for that regex, lines 106-108. *)
Definition meta_match (key content : string) : option string :=
  find_line key (lines_of content).

(** [(meta.match(re) || [])[1] || '?'], lines 106-108. *)
Definition meta_value (key content : string) : string :=
  match meta_match key content with
  | Some v => if String.eqb v "" then "?" else v
  | None => "?"
  end.

(** [content.replace(/^KEY.*$/m, KEY + v)]. *)
Definition meta_replace (key v content : string) : string :=
  unlines (replace_line key v (lines_of content)).

(** [updateMetadata(metaPath, passed, failed, total)] on the file's
    [content]. *)
Definition updateMetadata (content : string) (passed failed total : Z) : string :=
  let content := meta_replace "TOTAL=" (z_to_string total) content in
  let content := meta_replace "PASSED=" (z_to_string passed) content in
  meta_replace "FAILED=" (z_to_string failed) content.

(** *** Folder names *)

(** Adds [c] in front of the first part. *)
Definition push_char (c : ascii) (parts : list string) : list string :=
  match parts with
  | x :: xs => String c x :: xs
  | [] => [String c ""]
  end.

(** [name.split('__')]: cut left to right at each non-overlapping ["__"]. *)
Fixpoint split_dunder (s : string) : list string :=
  match s with
  | EmptyString => [""]
  | String c rest =>
      match rest with
      | String c2 rest' =>
          if Ascii.eqb c "_" && Ascii.eqb c2 "_" then "" :: split_dunder rest'
          else push_char c (split_dunder rest)
      | EmptyString => push_char c (split_dunder rest)
      end
  end.

(** [parts.join('__')]. *)
Fixpoint join_dunder (parts : list string) : string :=
  match parts with
  | [] => ""
  | [x] => x
  | x :: xs => x ++ "__" ++ join_dunder xs
  end.

(** Lines 141-148: the folder name with its last [__] part replaced by
    [newTag], when that part contains ["passed"]. *)
Definition rename_target (folder newTag : string) : option string :=
  let parts := split_dunder folder in
  let lastPart := List.last parts "" in
  if includes lastPart "passed"
  then Some (join_dunder (removelast parts ++ [newTag]))
  else None.

(** *** One report folder, lines 91-154 *)

Inductive FolderAction :=
| FolderSkip
| FolderUnchanged
| FolderFix (newMeta : option string) (rename : option string).

(** [meta] is the [.metadata] content when the file exists. *)
Definition process_folder (dry_run : bool) (folder : string)
    (summary : SummaryFile) (meta : option string) : FolderAction :=
  match countFromSummary summary with
  | None => FolderSkip
  | Some counts =>
      let '(oldPassed, oldFailed, oldTotal) :=
        match meta with
        | Some m => (meta_value "PASSED=" m, meta_value "FAILED=" m,
                     meta_value "TOTAL=" m)
        | None => ("?", "?", "?")
        end in
      let newPassed := c_passed counts in
      let newFailed := c_failed counts in
      let newTotal := c_total counts in
      if String.eqb oldPassed (z_to_string newPassed) &&
         String.eqb oldFailed (z_to_string newFailed) &&
         String.eqb oldTotal (z_to_string newTotal)
      then FolderUnchanged
      else if dry_run then FolderFix None None
      else
        let updatedMeta :=
          option_map (fun m => updateMetadata m newPassed newFailed newTotal) meta in
        let oldTag := statusTag (parseIntOrZero (JStr oldPassed))
                                (parseIntOrZero (JStr oldFailed)) in
        let newTag := statusTag newPassed newFailed in
        FolderFix updatedMeta
          (if String.eqb oldTag newTag then None else rename_target folder newTag)
  end.

(** *** The deferred renames, lines 157-166 *)

Record Rename := mkRename { old_name : string; new_name : string }.

(** The renames of the loop, in folder order. *)
Definition collect_renames (actions : list (string * FolderAction)) : list Rename :=
  omap (fun fa =>
          match fa.2 with
          | FolderFix _ (Some n) => Some (mkRename fa.1 n)
          | _ => None
          end) actions.

(** [dir] is the set of entry names of the reports directory.  A target
    that exists is skipped with a warning; [fs.renameSync] throws
    ([None]) when the source is missing. *)
Fixpoint apply_renames (dir : gset string) (rs : list Rename) : option (gset string) :=
  match rs with
  | [] => Some dir
  | r :: rs' =>
      if bool_decide (new_name r ∈ dir) then apply_renames dir rs'
      else if bool_decide (old_name r ∈ dir)
      then apply_renames ({[new_name r]} ∪ (dir ∖ {[old_name r]})) rs'
      else None
  end.

(** [main()] of the reconciler on the sorted report folders, each with
    its [widgets/summary.json] and [.metadata]: the folder actions and
    the reports directory after the renames. *)
Definition reconcile (dry_run : bool) (dir : gset string)
    (folders : list (string * SummaryFile * option string))
  : list (string * FolderAction) * option (gset string) :=
  let actions := map (fun '(f, sm, m) => (f, process_folder dry_run f sm m)) folders in
  (actions,
   if dry_run then Some dir else apply_renames dir (collect_renames actions)).

End FixStats.

(** The shape of a text cut into lines: every line but the last ends in a
    terminator, no line holds one. *)
Module TextShape.
Import JsString FixStats.

Fixpoint no_terminator (s : string) : bool :=
  match s with
  | EmptyString => true
  | String c s' => negb (is_line_terminator c) && no_terminator s'
  end.

Fixpoint wf_lines (ls : list (string * option ascii)) : Prop :=
  match ls with
  | [] => False
  | (l, t) :: rest =>
      no_terminator l = true /\
      match t with
      | None => rest = []
      | Some c => is_line_terminator c = true /\ wf_lines rest
      end
  end.


(** Folder-name parts: no ["__"] inside, no final ["_"], no ["_"] at all. *)
Fixpoint no_dunder (s : string) : bool :=
  match s with
  | EmptyString => true
  | String c r => negb (Ascii.eqb c "_" && startsWith "_" r) && no_dunder r
  end.

Fixpoint ends_underscore (s : string) : bool :=
  match s with
  | EmptyString => false
  | String c EmptyString => Ascii.eqb c "_"
  | String _ r => ends_underscore r
  end.

Fixpoint no_underscore (s : string) : bool :=
  match s with
  | EmptyString => true
  | String c r => negb (Ascii.eqb c "_") && no_underscore r
  end.

(** A folder-name part that [split('__')] keeps whole before a ["__"]. *)
Definition good_part (x : string) : Prop :=
  no_dunder x = true /\ ends_underscore x = false.

End TextShape.

(** What a folder action announces when nothing is written: a fix
    without its [.metadata] text and rename. *)
Module FixViews.
Import FixStats.

Definition preview_of (a : FolderAction) : FolderAction :=
  match a with
  | FolderFix _ _ => FolderFix None None
  | a => a
  end.

End FixViews.

(* ================================================================= *)
(** ** [generate-manifest.sh]: job names and JSON string fields *)

Module ManifestGen.
Import JsString.




(** [sed 's/X/Y/g'] for a one-character pattern. *)
Fixpoint replace_char (c : ascii) (rep s : string) : string :=
  match s with
  | EmptyString => EmptyString
  | String d s' =>
      if Ascii.eqb d c then rep ++ replace_char c rep s'
      else String d (replace_char c rep s')
  end.

Definition backslash : ascii := "092".
Definition dquote : ascii := "034".

(** Lines 70-72: [sed 's/\\/\\\\/g; s/"/\\"/g'], backslashes doubled
    first, then each quote preceded by a backslash. *)
Definition sed_json_escape (s : string) : string :=
  replace_char dquote (String backslash (String dquote ""))
    (replace_char backslash (String backslash (String backslash "")) s).

(** *** [JSON.parse] on a string literal *)

Definition hex_value (c : ascii) : option Z := ParseInt.digit_value 16 c.

(** The character a two-character escape stands for; [\u] is read apart. *)
Definition json_escape_char (e : ascii) : option ascii :=
  if Ascii.eqb e dquote then Some dquote
  else if Ascii.eqb e backslash then Some backslash
  else if Ascii.eqb e "/" then Some "/"%char
  else if Ascii.eqb e "b" then Some "008"%char
  else if Ascii.eqb e "f" then Some "012"%char
  else if Ascii.eqb e "n" then Some "010"%char
  else if Ascii.eqb e "r" then Some "013"%char
  else if Ascii.eqb e "t" then Some "009"%char
  else None.

(** The body of a JSON string literal after its opening quote: the value
    and the text after the closing quote.  A raw control character
    (below 0x20) or an unknown escape is a syntax error ([None]); a [\u]
    escape is read when it denotes a character below 256 (the model's
    characters are bytes). *)
Fixpoint json_string_body (s : string) : option (string * string) :=
  match s with
  | EmptyString => None
  | String c s' =>
      if Ascii.eqb c dquote then Some ("", s')
      else if Ascii.eqb c backslash then
        match s' with
        | String e r =>
            if Ascii.eqb e "u" then
              match r with
              | String h1 (String h2 (String h3 (String h4 r'))) =>
                  match hex_value h1, hex_value h2, hex_value h3, hex_value h4 with
                  | Some a, Some b, Some c3, Some d =>
                      let code := ((a * 16 + b) * 16 + c3) * 16 + d in
                      if code <? 256 then
                        option_map
                          (fun '(v, rest) => (String (ascii_of_nat (Z.to_nat code)) v, rest))
                          (json_string_body r')
                      else None
                  | _, _, _, _ => None
                  end
              | _ => None
              end
            else
              match json_escape_char e with
              | Some d => option_map (fun '(v, rest) => (String d v, rest)) (json_string_body r)
              | None => None
              end
        | EmptyString => None
        end
      else if Nat.ltb (nat_of_ascii c) 32 then None
      else option_map (fun '(v, rest) => (String c v, rest)) (json_string_body s')
  end.

(** *** Reading [.metadata]: [$(grep '^KEY=' meta | cut -d= -f2- | tr -d '\r')] *)











(** No control character below 0x20. *)
Fixpoint no_control (s : string) : bool :=
  match s with
  | EmptyString => true
  | String c s' => negb (Nat.ltb (nat_of_ascii c) 32) && no_control s'
  end.


(** *** Lines 33-35 and 50-52: the folder of a [.metadata] path and its job *)



















End ManifestGen.

(* ================================================================= *)
(** ** Views of the aggregate used to state its properties *)

Module Views.
Import Classify Stats.

(** Every entry is stored under its own date. *)
Definition keyed (m : gmap string DayEntry) : Prop :=
  forall k e, m !! k = Some e -> date e = k.

(** The records of [manifest] that [extractDate] maps to [d]. *)
Definition records_on (d : string) (manifest : list ReportRecord)
  : list ReportRecord :=
  List.filter (fun r => bool_decide (extractDate (timestamp r) = Some d)) manifest.

(** The entry for [d] computed from the records of [d] alone. *)
Definition fresh_day (d : string) (manifest : list ReportRecord) : DayEntry :=
  fold_left add_record (records_on d manifest) (new_day d).

Definition sumZ (l : list Z) : Z := fold_right Z.add 0 l.

(** [(count, Σ passed, Σ failed)] of a list of records, each count read
    with [parseInt(x) || 0]. *)
Definition stat_of (rs : list ReportRecord) : DailyStat :=
  mkStat (Z.of_nat (List.length rs))
    (sumZ (map (fun r => parseIntOrZero (passed r)) rs))
    (sumZ (map (fun r => parseIntOrZero (failed r)) rs)).

Definition on_platform (t : string) (rs : list ReportRecord) :=
  List.filter (fun r => String.eqb (detectPlatform (job r)) t) rs.

Definition on_env (t : string) (rs : list ReportRecord) :=
  List.filter (fun r => String.eqb (normalizeEnv (environment r)) t) rs.

Definition bump_record (g : ReportRecord -> string) (m : gmap string DailyStat)
    (r : ReportRecord) : gmap string DailyStat :=
  bump (g r) (parseIntOrZero (passed r)) (parseIntOrZero (failed r)) m.

Definition stat_record (s : DailyStat) (r : ReportRecord) : DailyStat :=
  add_to_stat s (parseIntOrZero (passed r)) (parseIntOrZero (failed r)).

End Views.


(* ================================================================= *)
(** ** The spec's own formulations, to compare with the code *)

Module SpecSide.
Import JsString Classify Stats.

(** "First matching rule wins, checked in that fixed order": a rule is a
    list of keywords and the tag given when one of them is contained. *)
Fixpoint first_rule (rules : list (list string * string)) (s : string)
  : option string :=
  match rules with
  | [] => None
  | (keywords, tag) :: rest =>
      if existsb (includes s) keywords then Some tag else first_rule rest s
  end.

Definition platform_rules : list (list string * string) :=
  [(["android"], "android"); (["ios"], "ios");
   (["browser"; "desktop"; "responsive"], "browser")].

(** Platform, from the lower-cased job, [other] when no rule matches. *)
Definition platform_spec (job : string) : string :=
  default "other" (first_rule platform_rules (toLowerCase job)).

Definition env_rules : list (list string * string) :=
  [(["sandbox"], "sandbox"); (["staging"], "staging");
   (["flux"], "flux"); (["local"], "local")].

(** Environment, from the lower-cased label: the lower-cased label itself
    when no rule matches and it is non-empty, else [unknown]. *)
Definition env_spec (env : string) : string :=
  let e := toLowerCase env in
  match first_rule env_rules e with
  | Some tag => tag
  | None => if String.eqb e "" then "unknown" else e
  end.

(** A [DayEntry.date] of the data model: [YYYY-MM-DD]. *)
Definition is_date_string (s : string) : bool :=
  date_prefix_ok s && Nat.eqb (String.length s) 10.

Fixpoint all_digits (s : string) : bool :=
  match s with
  | EmptyString => true
  | String c s' => is_digit c && all_digits s'
  end.

(** A "numeric" count: a JSON number, or a string that is an optional
    sign followed by decimal digits and nothing else. *)
Definition numeric_value (v : jval) : bool :=
  match v with
  | JNum _ => true
  | JStr s =>
      match s with
      | String "-" r | String "+" r => negb (String.eqb r "") && all_digits r
      | _ => negb (String.eqb s "") && all_digits s
      end
  | _ => false
  end.

Definition with_passed (v : jval) (r : ReportRecord) : ReportRecord :=
  mkReport (timestamp r) (environment r) (job r) v (failed r).

Definition with_failed (v : jval) (r : ReportRecord) : ReportRecord :=
  mkReport (timestamp r) (environment r) (job r) (passed r) v.

(** "A missing or non-numeric [passed] value contributes exactly zero". *)
Definition non_numeric_passed_is_zero : Prop :=
  forall (M1 M2 : list ReportRecord) (r : ReportRecord),
    numeric_value (passed r) = false ->
    aggregate (M1 ++ r :: M2) = aggregate (M1 ++ with_passed (JNum 0) r :: M2).

(** The sum of the counters of a breakdown. *)
Definition sum_stats (m : gmap string DailyStat) : DailyStat :=
  map_fold (fun _ s acc => mkStat (runs s + runs acc) (spassed s + spassed acc)
                                  (sfailed s + sfailed acc)) zero_stat m.

Definition breakdown_consistent (day : DayEntry) : Prop :=
  sum_stats (platforms day) = totals day /\
  sum_stats (environments day) = totals day.

End SpecSide.


(* ================================================================= *)
(** ** Sample inputs *)

Module Samples.
Import Stats.

(** The two records of the spec's scenario. *)
Definition report_android : ReportRecord :=
  mkReport (Some "2026-02-18_100000") (Some "staging") (Some "android-smoke")
    (JStr "10") (JStr "2").

Definition report_ios : ReportRecord :=
  mkReport (Some "2026-02-18_110000") (Some "sandbox") (Some "ios-e2e")
    (JStr "5") (JStr "0").

(** A [passed] count written as ["7abc"]. *)
Definition report_partial_number : ReportRecord :=
  mkReport (Some "2026-02-18_100000") (Some "staging") (Some "android-smoke")
    (JStr "7abc") (JNum 0).

(** A run whose [ENVIRONMENT] label is [constructor]. *)
Definition report_constructor_env : ReportRecord :=
  mkReport (Some "2026-02-18_100000") (Some "constructor")
    (Some "android-smoke") (JNum 10) (JNum 2).

(** A run without a dated timestamp and with unreadable counts. *)
Definition report_no_date : ReportRecord :=
  mkReport (Some "latest") (Some "staging") (Some "ios-e2e") JNull (JStr "n/a").

(** A dated run whose counts [parseInt] cannot read. *)
Definition report_unreadable : ReportRecord :=
  mkReport (Some "2026-02-18_120000") (Some "staging") (Some "android-smoke")
    JNull (JStr "n/a").

(** A day of the prior history outside the manifest's window. *)
Definition prior_day : DayEntry :=
  mkDay "2026-02-01" (mkStat 3 20 1) ∅ ∅.

(** A day of the prior history that the manifest's records also date. *)
Definition prior_day_18 : DayEntry :=
  mkDay "2026-02-18" (mkStat 4 30 6) ∅ ∅.

End Samples.

Module FixSamples.
Import Reconcile FixStats.

(** A [widgets/summary.json] with 12 passed, 2 failed and 1 broken. *)
Definition summary_12_3 : SummaryFile :=
  SParsed (Some (mkStatistic (Some 12) (Some 2) (Some 1) (Some 0) None)).

Definition counts_12_3 : Counts := mkCounts 12 3 15 (mkDetail 12 2 1 0 0).

Definition nl : string := String "010" "".

(** A [.metadata] with the old JUnit-derived counts. *)
Definition meta_stale : string :=
  "TIMESTAMP=2026-02-18_143000" ++ nl ++ "PASSED=10" ++ nl ++ "FAILED=2" ++ nl ++
  "TOTAL=12" ++ nl.

(** A [.metadata] whose passed and failed counts are current, its total
    is not. *)
Definition meta_total_stale : string :=
  "TIMESTAMP=2026-02-18_143000" ++ nl ++ "PASSED=12" ++ nl ++ "FAILED=3" ++ nl ++
  "TOTAL=99" ++ nl.

(** A [.metadata] without count lines. *)
Definition meta_no_counts : string := "JOB=android-smoke" ++ nl.

Definition folder_stale : string :=
  "2026-02-18_143000__android-smoke__staging__main__10passed_2failed".

Definition folder_other : string :=
  "2026-02-17_090000__ios-e2e__sandbox__main__5passed".

Definition reports_dir : gset string := {[folder_stale; folder_other]}.

End FixSamples.

(* ================================================================= *)
(** ** Facts about the merge and the sorted output *)

Module MergeFacts.
Import Classify Stats Views.


Lemma sorted_keys_elem {A} (m : gmap string A) k :
  k ∈ sorted_keys m <-> is_Some (m !! k).
Proof.
  unfold sorted_keys. rewrite (merge_sort_Permutation _ _).
  rewrite list_elem_of_fmap. split.
  - intros [[k' x] [-> Hin]]. apply elem_of_map_to_list in Hin. by exists x.
  - intros [x Hx]. exists (k, x). split; [done|]. by apply elem_of_map_to_list.
Qed.

Lemma sorted_keys_NoDup {A} (m : gmap string A) : NoDup (sorted_keys m).
Proof.
  unfold sorted_keys. rewrite (merge_sort_Permutation _ _).
  apply NoDup_fst_map_to_list.
Qed.

Lemma sorted_keys_sorted {A} (m : gmap string A) :
  StronglySorted String.le (sorted_keys m).
Proof. unfold sorted_keys. apply StronglySorted_merge_sort; apply _. Qed.

Lemma map_date_omap (m : gmap string DayEntry) (l : list string) :
  keyed m -> (forall k, k ∈ l -> is_Some (m !! k)) ->
  map date (omap (fun k => m !! k) l) = l.
Proof.
  intros Hk. induction l as [|k l IH]; intros Hl; [done|].
  destruct (Hl k ltac:(left)) as [e He]. simpl. rewrite He. simpl.
  rewrite (Hk _ _ He). f_equal. apply IH. intros k' ?. apply Hl. by right.
Qed.

Lemma merged_entries_dates (m : gmap string DayEntry) :
  keyed m -> map date (merged_entries m) = sorted_keys m.
Proof.
  intros Hk. apply map_date_omap; [done|]. intros k. apply sorted_keys_elem.
Qed.

Lemma merged_entries_elem (m : gmap string DayEntry) e :
  keyed m -> e ∈ merged_entries m <-> m !! date e = Some e.
Proof.
  intros Hk. unfold merged_entries. rewrite list_elem_of_omap. split.
  - intros (k & _ & He). by rewrite (Hk _ _ He).
  - intros He. exists (date e). split; [|done].
    apply sorted_keys_elem. by exists e.
Qed.

Lemma entry_for_unique (es : list DayEntry) e :
  NoDup (map date es) -> e ∈ es -> entry_for (date e) es = Some e.
Proof.
  induction es as [|x es IH]; intros Hnd Hin; [by apply elem_of_nil in Hin|].
  simpl in Hnd. apply NoDup_cons in Hnd as [Hx Hnd]. unfold entry_for. simpl.
  apply elem_of_cons in Hin as [->|Hin].
  - by rewrite String.eqb_refl.
  - destruct (String.eqb_spec (date x) (date e)) as [Heq|Hne].
    + exfalso. apply Hx. rewrite Heq. by apply list_elem_of_fmap_2.
    + by apply IH.
Qed.

Lemma entry_for_Some (es : list DayEntry) d e :
  entry_for d es = Some e -> e ∈ es /\ date e = d.
Proof.
  unfold entry_for. intros Hf. apply find_some in Hf as [Hin Heq].
  apply String.eqb_eq in Heq. split; [by apply list_elem_of_In|done].
Qed.

Lemma entry_for_merged (m : gmap string DayEntry) d :
  keyed m -> entry_for d (merged_entries m) = m !! d.
Proof.
  intros Hk. destruct (m !! d) as [e|] eqn:Hd.
  - rewrite <- (Hk _ _ Hd). apply entry_for_unique.
    + rewrite merged_entries_dates by done. apply sorted_keys_NoDup.
    + apply merged_entries_elem; [done|]. by rewrite (Hk _ _ Hd).
  - destruct (entry_for d (merged_entries m)) as [e|] eqn:He; [|done].
    apply entry_for_Some in He as [Hin <-].
    apply merged_entries_elem in Hin; [|done]. congruence.
Qed.


Lemma add_record_date day r : date (add_record day r) = date day.
Proof. done. Qed.

Lemma fold_add_record_date rs day : date (fold_left add_record rs day) = date day.
Proof. revert day. induction rs as [|r rs IH]; intros day; [done|]. simpl. by rewrite IH. Qed.

Lemma aggregate_lookup_gen manifest m d :
  fold_left aggregate_step manifest m !! d =
  fold_left (fun od r => Some (add_record (default (new_day d) od) r))
    (records_on d manifest) (m !! d).
Proof.
  revert m. induction manifest as [|r rs IH]; intros m; [done|].
  simpl. rewrite IH. unfold aggregate_step.
  destruct (extractDate (timestamp r)) as [d'|] eqn:Hd.
  - destruct (String.eqb_spec d' d) as [->|Hne].
    + rewrite bool_decide_true by done. simpl. by rewrite lookup_insert_eq.
    + rewrite bool_decide_false by congruence.
      by rewrite lookup_insert_ne by done.
  - by rewrite bool_decide_false by congruence.
Qed.

Lemma fold_some_day d rs od :
  rs <> [] ->
  fold_left (fun od r => Some (add_record (default (new_day d) od) r)) rs od =
  Some (fold_left add_record rs (default (new_day d) od)).
Proof.
  revert od. induction rs as [|r rs IH]; intros od Hne; [done|]. simpl.
  destruct rs as [|r' rs']; [done|]. by rewrite IH.
Qed.

Lemma fold_none_day d od :
  fold_left (fun od r => Some (add_record (default (new_day d) od) r)) [] od = od.
Proof. done. Qed.

Lemma aggregate_lookup manifest d :
  aggregate manifest !! d =
  match records_on d manifest with
  | [] => None
  | _ => Some (fresh_day d manifest)
  end.
Proof.
  unfold aggregate, fresh_day. rewrite aggregate_lookup_gen.
  destruct (records_on d manifest) as [|r rs] eqn:Hrs; [done|].
  rewrite fold_some_day by done. done.
Qed.

Lemma records_on_nil d manifest :
  records_on d manifest = [] <->
  (forall r, r ∈ manifest -> extractDate (timestamp r) <> Some d).
Proof.
  unfold records_on. split.
  - intros Hnil r Hin Hd. assert (Hf : r ∈ List.filter
      (fun r => bool_decide (extractDate (timestamp r) = Some d)) manifest).
    { apply list_elem_of_In, filter_In. split; [by apply list_elem_of_In|].
      by apply bool_decide_eq_true. }
    rewrite Hnil in Hf. by apply elem_of_nil in Hf.
  - intros Hno. induction manifest as [|r rs IH]; [done|]. simpl.
    rewrite bool_decide_false.
    + apply IH. intros r' ?. apply Hno. by right.
    + apply Hno. by left.
Qed.

Lemma extractDate_not_proto ts d :
  extractDate ts = Some d -> d <> "__proto__".
Proof.
  unfold extractDate. destruct ts as [s|]; [|done].
  destruct (String.eqb s ""); [done|].
  destruct (date_prefix_ok s) eqn:Hok; [|done]. intros Hd.
  destruct s as [|y1 s]; [done|]. simpl in Hd. injection Hd as <-.
  intros Heq. injection Heq as Hy1 _. subst y1.
  destruct s as [|? [|? [|? [|? [|? [|? [|? [|? [|? ?]]]]]]]]]; done.
Qed.

Lemma keyed_aggregate manifest : keyed (aggregate manifest).
Proof.
  intros k e. rewrite aggregate_lookup.
  destruct (records_on k manifest); [done|]. intros [= <-].
  unfold fresh_day. by rewrite fold_add_record_date.
Qed.

Lemma aggregate_not_proto manifest : aggregate manifest !! "__proto__" = None.
Proof.
  rewrite aggregate_lookup.
  destruct (records_on "__proto__" manifest) as [|r rs] eqn:Hrs; [done|].
  exfalso. assert (Hr : r ∈ records_on "__proto__" manifest) by (rewrite Hrs; left).
  unfold records_on in Hr. apply list_elem_of_In, filter_In in Hr as [_ Hr].
  apply bool_decide_eq_true in Hr. by apply extractDate_not_proto in Hr.
Qed.

Lemma existing_unchanged l m k :
  (forall e, e ∈ l -> date e = k -> k = "__proto__") ->
  fold_left set_existing l m !! k = m !! k.
Proof.
  revert m. induction l as [|e l IH]; intros m Hl; [done|]. simpl.
  rewrite IH by (intros e' ??; apply (Hl e'); [by right|done]).
  unfold set_existing. destruct (String.eqb_spec (date e) "__proto__"); [done|].
  apply lookup_insert_ne. intros Heq. apply n. rewrite Heq. by apply (Hl e); [left|].
Qed.

Lemma existing_found l m e :
  NoDup (map date l) -> e ∈ l -> date e <> "__proto__" ->
  fold_left set_existing l m !! date e = Some e.
Proof.
  revert m. induction l as [|x l IH]; intros m Hnd Hin Hp;
    [by apply elem_of_nil in Hin|].
  simpl in Hnd. apply NoDup_cons in Hnd as [Hx Hnd]. simpl.
  apply elem_of_cons in Hin as [<-|Hin].
  - rewrite existing_unchanged.
    + unfold set_existing. destruct (String.eqb_spec (date e) "__proto__"); [done|].
      apply lookup_insert_eq.
    + intros e' He' Hd. exfalso. apply Hx. rewrite <- Hd.
      by apply list_elem_of_fmap_2.
  - by apply IH.
Qed.

Lemma keyed_existing_gen l m :
  keyed m -> m !! "__proto__" = None ->
  keyed (fold_left set_existing l m) /\
  fold_left set_existing l m !! "__proto__" = None.
Proof.
  revert m. induction l as [|e l IH]; intros m Hk Hp; [done|]. simpl.
  apply IH; unfold set_existing;
    destruct (String.eqb_spec (date e) "__proto__") as [He|He]; try done.
  - intros k x. destruct (String.eqb_spec k (date e)) as [->|Hne].
    + rewrite lookup_insert_eq. by intros [= <-].
    + rewrite lookup_insert_ne by congruence. apply Hk.
  - by rewrite lookup_insert_ne by congruence.
Qed.

Lemma keyed_existing l :
  keyed (existing_map l) /\ existing_map l !! "__proto__" = None.
Proof. apply keyed_existing_gen; done. Qed.

Lemma keyed_merge ex fr : keyed ex -> keyed fr -> keyed (merge ex fr).
Proof.
  intros Hex Hfr k e. unfold merge. intros He.
  apply lookup_union_Some_raw in He as [He|[_ He]]; eauto.
Qed.

Lemma merge_not_proto ex fr :
  ex !! "__proto__" = None -> fr !! "__proto__" = None ->
  merge ex fr !! "__proto__" = None.
Proof. intros. unfold merge. by apply lookup_union_None. Qed.

Lemma main_present manifest hist now :
  fst (main (MPresent manifest) hist now) =
  Written (mkHistory (Some now)
    (merged_entries (merge (existing_map (fst (read_history hist)))
                           (aggregate manifest)))).
Proof. unfold main. by destruct (read_history hist). Qed.

Lemma keyed_run manifest prior :
  keyed (merge (existing_map prior) (aggregate manifest)) /\
  merge (existing_map prior) (aggregate manifest) !! "__proto__" = None.
Proof.
  destruct (keyed_existing prior) as [Hk Hp]. split.
  - apply keyed_merge; [done|]. apply keyed_aggregate.
  - apply merge_not_proto; [done|]. apply aggregate_not_proto.
Qed.

Lemma existing_map_merged m :
  keyed m -> m !! "__proto__" = None ->
  existing_map (merged_entries m) = m.
Proof.
  intros Hk Hp. apply map_eq. intros k. unfold existing_map.
  destruct (String.eqb_spec k "__proto__") as [->|Hne].
  - rewrite existing_unchanged by done. by rewrite lookup_empty.
  - destruct (m !! k) as [e|] eqn:He.
    + pose proof (Hk _ _ He) as Hd. rewrite <- Hd. apply existing_found.
      * rewrite merged_entries_dates by done. apply sorted_keys_NoDup.
      * apply merged_entries_elem; [done|]. by rewrite Hd.
      * by rewrite Hd.
    + rewrite existing_unchanged; [by rewrite lookup_empty|].
      intros e' Hin Hd. apply merged_entries_elem in Hin; [|done]. congruence.
Qed.

End MergeFacts.

(* ================================================================= *)
(** ** Facts about the per-day sums *)

Module SumFacts.
Import Classify Stats Views MergeFacts.


Lemma fold_stat_record rs s :
  fold_left stat_record rs s =
  mkStat (runs s + runs (stat_of rs)) (spassed s + spassed (stat_of rs))
    (sfailed s + sfailed (stat_of rs)).
Proof.
  revert s. induction rs as [|r rs IH]; intros s.
  - destruct s; simpl; f_equal; lia.
  - simpl. rewrite IH. unfold stat_record, add_to_stat, stat_of. simpl.
    f_equal; lia.
Qed.

Lemma stat_of_fold rs : fold_left stat_record rs zero_stat = stat_of rs.
Proof. rewrite fold_stat_record. destruct (stat_of rs); simpl; f_equal. Qed.

Lemma totals_fold rs day :
  totals (fold_left add_record rs day) = fold_left stat_record rs (totals day).
Proof. revert day. induction rs as [|r rs IH]; intros day; [done|]. apply IH. Qed.

Lemma platforms_fold rs day :
  platforms (fold_left add_record rs day) =
  fold_left (bump_record (fun r => detectPlatform (job r))) rs (platforms day).
Proof. revert day. induction rs as [|r rs IH]; intros day; [done|]. apply IH. Qed.

Lemma environments_fold rs day :
  environments (fold_left add_record rs day) =
  fold_left (bump_record (fun r => normalizeEnv (environment r))) rs
    (environments day).
Proof. revert day. induction rs as [|r rs IH]; intros day; [done|]. apply IH. Qed.

Lemma bump_fold_own g rs m t :
  js_inherited t = false ->
  fold_left (bump_record g) rs m !! t =
  fold_left (fun os r => if String.eqb (g r) t
                         then Some (stat_record (default zero_stat os) r) else os)
    rs (m !! t).
Proof.
  intros Ht. revert m. induction rs as [|r rs IH]; intros m; [done|].
  simpl. rewrite IH. f_equal. unfold bump_record, bump.
  destruct (String.eqb_spec (g r) t) as [->|Hne].
  - destruct (m !! t) as [s|] eqn:Hs.
    + by rewrite lookup_insert_eq.
    + rewrite Ht. by rewrite lookup_insert_eq.
  - destruct (m !! g r); [by rewrite lookup_insert_ne|].
    destruct (js_inherited (g r)); [done|]. by rewrite lookup_insert_ne.
Qed.

Lemma bump_fold_inherited g rs m t :
  js_inherited t = true -> m !! t = None ->
  fold_left (bump_record g) rs m !! t = None.
Proof.
  intros Ht. revert m. induction rs as [|r rs IH]; intros m Hm; [done|].
  simpl. apply IH. unfold bump_record, bump.
  destruct (String.eqb_spec (g r) t) as [->|Hne].
  - rewrite Hm, Ht. done.
  - destruct (m !! g r); [by rewrite lookup_insert_ne|].
    destruct (js_inherited (g r)); [done|]. by rewrite lookup_insert_ne.
Qed.

Lemma fold_option_stat (P : ReportRecord -> bool) rs os :
  fold_left (fun os r => if P r then Some (stat_record (default zero_stat os) r)
                         else os) rs os =
  match List.filter P rs with
  | [] => os
  | sel => Some (fold_left stat_record sel (default zero_stat os))
  end.
Proof.
  revert os. induction rs as [|r rs IH]; intros os; [done|]. simpl.
  rewrite IH. destruct (P r) eqn:HP; simpl.
  - destruct (List.filter P rs); done.
  - done.
Qed.

Lemma detectPlatform_not_inherited j : js_inherited (detectPlatform j) = false.
Proof.
  unfold detectPlatform.
  repeat match goal with |- context [if ?b then _ else _] => destruct b end;
    reflexivity.
Qed.

Lemma platforms_fresh_lookup d manifest t :
  platforms (fresh_day d manifest) !! t =
  match on_platform t (records_on d manifest) with
  | [] => None
  | sel => Some (stat_of sel)
  end.
Proof.
  unfold fresh_day. rewrite platforms_fold. simpl.
  destruct (js_inherited t) eqn:Ht.
  - rewrite bump_fold_inherited by done.
    destruct (on_platform t (records_on d manifest)) as [|r rs] eqn:Hsel; [done|].
    exfalso. assert (Hr : r ∈ on_platform t (records_on d manifest))
      by (rewrite Hsel; left).
    unfold on_platform in Hr. apply list_elem_of_In, filter_In in Hr as [_ Hr].
    apply String.eqb_eq in Hr. pose proof (detectPlatform_not_inherited (job r)).
    congruence.
  - rewrite bump_fold_own by done. rewrite fold_option_stat.
    unfold on_platform. destruct (List.filter _ _); [done|].
    rewrite lookup_empty. cbn [default]. by rewrite stat_of_fold.
Qed.

Lemma environments_fresh_lookup d manifest t s :
  environments (fresh_day d manifest) !! t = Some s ->
  s = stat_of (on_env t (records_on d manifest)).
Proof.
  unfold fresh_day. rewrite environments_fold. simpl.
  destruct (js_inherited t) eqn:Ht.
  - by rewrite bump_fold_inherited by done.
  - rewrite bump_fold_own by done. rewrite fold_option_stat.
    unfold on_env. destruct (List.filter _ _); [done|].
    rewrite lookup_empty. cbn [default]. rewrite stat_of_fold. by intros [= <-].
Qed.

Lemma totals_fresh d manifest :
  totals (fresh_day d manifest) = stat_of (records_on d manifest).
Proof. unfold fresh_day. rewrite totals_fold. apply stat_of_fold. Qed.

End SumFacts.

(* ================================================================= *)
(** ** Properties of the aggregator *)

Module Claims.
Import JsString Classify Stats Views SpecSide MergeFacts SumFacts.

Lemma is_date_not_proto d : is_date_string d = true -> d <> "__proto__".
Proof. intros Hd ->. discriminate Hd. Qed.

(** C1 (preservation): a date of the prior history (a [YYYY-MM-DD] date,
    occurring once, as in the data model) to which no manifest record maps
    keeps its prior entry, unchanged, in the written history. *)
Theorem C1_preservation (manifest : list ReportRecord) (prior : list DayEntry)
    (now : string) (e : DayEntry) :
  NoDup (map date prior) -> e ∈ prior -> is_date_string (date e) = true ->
  (forall r, r ∈ manifest -> extractDate (timestamp r) <> Some (date e)) ->
  exists h, fst (main (MPresent manifest) (HParsed (Some prior)) now) = Written h /\
            entry_for (date e) (entries h) = Some e.
Proof.
  intros Hnd Hin Hdate Hno. eexists. split; [apply main_present|]. simpl.
  destruct (keyed_run manifest prior) as [Hk _].
  rewrite entry_for_merged by done. unfold merge.
  rewrite lookup_union_r.
  - apply existing_found; [done|done|]. by apply is_date_not_proto.
  - rewrite aggregate_lookup. by rewrite (proj2 (records_on_nil _ _) Hno).
Qed.

(** C2 (overwrite, not merge): whatever the prior history, a date to which
    some manifest record maps gets the entry computed from the manifest's
    records of that date alone. *)
Theorem C2_overwrite (manifest : list ReportRecord) (hist : HistoryFile)
    (now d : string) :
  (exists r, r ∈ manifest /\ extractDate (timestamp r) = Some d) ->
  exists h, fst (main (MPresent manifest) hist now) = Written h /\
            entry_for d (entries h) = Some (fresh_day d manifest).
Proof.
  intros [r [Hin Hr]]. eexists. split; [apply main_present|]. simpl.
  destruct (keyed_run manifest (fst (read_history hist))) as [Hk _].
  rewrite entry_for_merged by done. unfold merge.
  apply lookup_union_Some_l. rewrite aggregate_lookup.
  destruct (records_on d manifest) eqn:Hrs; [|done].
  exfalso. by apply (proj1 (records_on_nil _ _) Hrs r Hin).
Qed.

(** C3 (sum correctness): the entry computed for a date with records has
    totals [(count, Σ passed, Σ failed)] of those records, each platform
    tag the same sums over the records of that platform (and a tag exactly
    when it has records), and each environment tag present the same sums
    over the records of that environment. *)
Theorem C3_sum_correctness (manifest : list ReportRecord) (d : string) :
  records_on d manifest <> [] ->
  exists day, aggregate manifest !! d = Some day /\
    totals day = stat_of (records_on d manifest) /\
    (forall t, platforms day !! t =
       match on_platform t (records_on d manifest) with
       | [] => None
       | sel => Some (stat_of sel)
       end) /\
    (forall t s, environments day !! t = Some s ->
       s = stat_of (on_env t (records_on d manifest))).
Proof.
  intros Hne. exists (fresh_day d manifest). split.
  - rewrite aggregate_lookup. by destruct (records_on d manifest).
  - split; [apply totals_fresh|]. split.
    + intros t. apply platforms_fresh_lookup.
    + intros t s. apply environments_fresh_lookup.
Qed.

(** C5 (idempotence): two runs on the same inputs write the same entries,
    and a run on the same manifest with the history written by a first run
    writes the entries of that first run. *)
Theorem C5_idempotence (man : ManifestFile) (hist : HistoryFile)
    (now1 now2 : string) :
  written_entries (main man hist now1) = written_entries (main man hist now2) /\
  written_entries (main man (history_after (main man hist now1) hist) now2) =
  written_entries (main man hist now1).
Proof.
  destruct man as [|manifest]; [done|].
  unfold written_entries, history_after. rewrite !main_present. simpl.
  split; [done|]. f_equal.
  set (m := merge (existing_map (fst (read_history hist))) (aggregate manifest)).
  destruct (keyed_run manifest (fst (read_history hist))) as [Hk Hp].
  rewrite (existing_map_merged m Hk Hp). unfold m, merge.
  by rewrite (assoc_L _), (idemp_L _).
Qed.

(** C6 (sorted, unique dates): the entries of every written history are
    in ascending order of their date strings, with no date twice. *)
Theorem C6_sorted_unique (man : ManifestFile) (hist : HistoryFile)
    (now : string) :
  match written_entries (main man hist now) with
  | Some es => StronglySorted String.le (map date es) /\ NoDup (map date es)
  | None => True
  end.
Proof.
  destruct man as [|manifest]; [done|].
  unfold written_entries. rewrite main_present. simpl.
  destruct (keyed_run manifest (fst (read_history hist))) as [Hk _].
  rewrite merged_entries_dates by done.
  split; [apply sorted_keys_sorted|apply sorted_keys_NoDup].
Qed.

(** C7 (corrupt history): a history file that does not parse is reported
    with a warning, the run still writes, and it writes what it writes
    with no history file at all. *)
Theorem C7_corrupt_history (manifest : list ReportRecord) (now : string) :
  In LCouldNotParseHistory (snd (main (MPresent manifest) HUnparseable now)) /\
  (exists h, fst (main (MPresent manifest) HUnparseable now) = Written h) /\
  fst (main (MPresent manifest) HUnparseable now) =
  fst (main (MPresent manifest) HAbsent now).
Proof.
  split; [|split].
  - simpl. right. by left.
  - eexists. apply main_present.
  - by rewrite !main_present.
Qed.

End Claims.

Module Claims2.
Import JsString Classify Stats Views SpecSide Samples MergeFacts SumFacts.

(** C4 (classification): the platform and environment tags are the
    spec's first-matching-rule classification of the lower-cased label,
    a missing label being read as [""]; the spec's examples hold. *)
Theorem C4_classification :
  (forall j, detectPlatform (Some j) = platform_spec j) /\
  detectPlatform None = platform_spec "" /\
  (forall e, normalizeEnv (Some e) = env_spec e) /\
  normalizeEnv None = env_spec "" /\
  detectPlatform (Some "android-smoke-01") = "android" /\
  detectPlatform (Some "ios-regression") = "ios" /\
  detectPlatform (Some "browser-desktop-ci") = "browser" /\
  detectPlatform (Some "unit-tests") = "other" /\
  normalizeEnv (Some "Staging-EU") = "staging" /\
  normalizeEnv (Some "") = "unknown".
Proof.
  split; [|split; [reflexivity|split; [|repeat split; reflexivity]]].
  - intros j. unfold detectPlatform, platform_spec. simpl.
    destruct (includes (toLowerCase j) "android"); [done|].
    destruct (includes (toLowerCase j) "ios"); [done|].
    destruct (includes (toLowerCase j) "browser"),
      (includes (toLowerCase j) "desktop"),
      (includes (toLowerCase j) "responsive"); done.
  - intros e. unfold normalizeEnv, env_spec. simpl.
    destruct (includes (toLowerCase e) "sandbox"); [done|].
    destruct (includes (toLowerCase e) "staging"); [done|].
    destruct (includes (toLowerCase e) "flux"); [done|].
    destruct (includes (toLowerCase e) "local"); done.
Qed.

(** C8, as stated, fails: a [passed] count ["7abc"] is not numeric, yet
    [parseInt] reads [7] from it and the record adds [7], not [0]. *)
Lemma C8_partial_number_counterexample : ~ non_numeric_passed_is_zero.
Proof.
  intros H. specialize (H [] [] report_partial_number eq_refl).
  apply (f_equal (fun m : gmap string DayEntry =>
    option_map (fun day => spassed (totals day)) (m !! "2026-02-18"))) in H.
  vm_compute in H. discriminate H.
Qed.

Lemma step_drop m r :
  extractDate (timestamp r) = None -> aggregate_step m r = m.
Proof. intros Hd. unfold aggregate_step. by rewrite Hd. Qed.

Lemma step_passed_same m r v :
  parseIntOrZero (passed r) = parseIntOrZero v ->
  aggregate_step m r = aggregate_step m (with_passed v r).
Proof.
  intros Hp. unfold aggregate_step. simpl.
  destruct (extractDate (timestamp r)); [|done].
  unfold add_record. simpl. by rewrite Hp.
Qed.

Lemma step_failed_same m r v :
  parseIntOrZero (failed r) = parseIntOrZero v ->
  aggregate_step m r = aggregate_step m (with_failed v r).
Proof.
  intros Hf. unfold aggregate_step. simpl.
  destruct (extractDate (timestamp r)); [|done].
  unfold add_record. simpl. by rewrite Hf.
Qed.

Lemma aggregate_passed_same M1 M2 r v :
  parseIntOrZero (passed r) = parseIntOrZero v ->
  aggregate (M1 ++ r :: M2) = aggregate (M1 ++ with_passed v r :: M2).
Proof.
  intros Hp. unfold aggregate. rewrite !fold_left_app. simpl.
  by rewrite (step_passed_same _ r v Hp).
Qed.

Lemma aggregate_failed_same M1 M2 r v :
  parseIntOrZero (failed r) = parseIntOrZero v ->
  aggregate (M1 ++ r :: M2) = aggregate (M1 ++ with_failed v r :: M2).
Proof.
  intros Hf. unfold aggregate. rewrite !fold_left_app. simpl.
  by rewrite (step_failed_same _ r v Hf).
Qed.

(** C8, amended: a record with no [YYYY-MM-DD] timestamp prefix is
    dropped; a [passed] or [failed] value counts as the integer [z] that
    [parseInt] reads from it (the record aggregates as if the value were
    the number [z]; ["7abc"] reads [7]), and as [0] when [parseInt] reads
    no integer (missing, [null], booleans, strings without a leading
    integer); a dated record counts as a run of its date whatever its
    counts. *)
Theorem C8_malformed_fields_amended (M1 M2 : list ReportRecord)
    (r : ReportRecord) :
  js_parseInt (JStr "7abc") = Some 7 /\
  (extractDate (timestamp r) = None ->
   aggregate (M1 ++ r :: M2) = aggregate (M1 ++ M2)) /\
  (forall z, js_parseInt (passed r) = Some z ->
   aggregate (M1 ++ r :: M2) = aggregate (M1 ++ with_passed (JNum z) r :: M2)) /\
  (js_parseInt (passed r) = None ->
   aggregate (M1 ++ r :: M2) = aggregate (M1 ++ with_passed (JNum 0) r :: M2)) /\
  (forall z, js_parseInt (failed r) = Some z ->
   aggregate (M1 ++ r :: M2) = aggregate (M1 ++ with_failed (JNum z) r :: M2)) /\
  (js_parseInt (failed r) = None ->
   aggregate (M1 ++ r :: M2) = aggregate (M1 ++ with_failed (JNum 0) r :: M2)) /\
  (forall d, extractDate (timestamp r) = Some d ->
   exists day, aggregate (M1 ++ r :: M2) !! d = Some day /\
     runs (totals day) = Z.of_nat (List.length (records_on d (M1 ++ r :: M2)))).
Proof.
  split; [reflexivity|]. split; [|split; [|split; [|split; [|split]]]].
  - intros Hd. unfold aggregate. rewrite !fold_left_app. simpl.
    by rewrite step_drop.
  - intros z Hp. apply aggregate_passed_same.
    unfold parseIntOrZero. by rewrite Hp.
  - intros Hp. apply aggregate_passed_same.
    unfold parseIntOrZero. by rewrite Hp.
  - intros z Hf. apply aggregate_failed_same.
    unfold parseIntOrZero. by rewrite Hf.
  - intros Hf. apply aggregate_failed_same.
    unfold parseIntOrZero. by rewrite Hf.
  - intros d Hd. rewrite aggregate_lookup.
    destruct (records_on d (M1 ++ r :: M2)) as [|r' rs] eqn:Hrs.
    + exfalso. apply (proj1 (records_on_nil _ _) Hrs r); [|done].
      apply elem_of_app. right. by left.
    + eexists. split; [reflexivity|]. rewrite totals_fresh, Hrs. done.
Qed.

(** C9 (reconciler counts): with a readable [statistic], the recomputed
    record has [passed], [failed + broken] and [passed + failed + broken]. *)
Theorem C9_reconciler_counts (st : Reconcile.Statistic) :
  exists c, Reconcile.countFromSummary (Reconcile.SParsed (Some st)) = Some c /\
    Reconcile.c_passed c = default 0 (Reconcile.st_passed st) /\
    Reconcile.c_failed c =
      default 0 (Reconcile.st_failed st) + default 0 (Reconcile.st_broken st) /\
    Reconcile.c_total c =
      default 0 (Reconcile.st_passed st) + default 0 (Reconcile.st_failed st) +
      default 0 (Reconcile.st_broken st).
Proof. eexists. split; [reflexivity|]. simpl. auto. Qed.

(** C10 at the failing input: one run with environment [constructor].
    The platform breakdown sums to the totals, the environment breakdown
    is empty: [environments["constructor"]] is the inherited [Object]
    function, so no counter object is created for it. *)
Theorem C10_constructor_environment :
  match aggregate [report_constructor_env] !! "2026-02-18" with
  | Some day =>
      totals day = mkStat 1 10 2 /\
      sum_stats (platforms day) = totals day /\
      sum_stats (environments day) = zero_stat /\
      ~ breakdown_consistent day
  | None => False
  end.
Proof.
  vm_compute. split; [done|split; [done|split; [done|]]].
  intros [_ H]. discriminate H.
Qed.

(** The spec's scenario. *)
Example scenario_two_reports :
  match aggregate [report_android; report_ios] !! "2026-02-18" with
  | Some day =>
      totals day = mkStat 2 15 2 /\
      platforms day !! "android" = Some (mkStat 1 10 2) /\
      platforms day !! "ios" = Some (mkStat 1 5 0) /\
      environments day !! "staging" = Some (mkStat 1 10 2) /\
      environments day !! "sandbox" = Some (mkStat 1 5 0)
  | None => False
  end.
Proof. vm_compute. repeat split. Qed.

End Claims2.

(* ================================================================= *)
(** ** The theorems at concrete inputs *)

Module Witnesses.
Import Classify Stats Views SpecSide Samples Claims Claims2.

Lemma C1_witness :
  NoDup (map date [prior_day]) /\ prior_day ∈ [prior_day] /\
  is_date_string (date prior_day) = true /\
  (forall r, r ∈ [report_android; report_ios] ->
     extractDate (timestamp r) <> Some (date prior_day)) /\
  exists h, fst (main (MPresent [report_android; report_ios])
                      (HParsed (Some [prior_day])) "2026-02-19T00:00:00Z") = Written h /\
            entry_for (date prior_day) (entries h) = Some prior_day.
Proof.
  assert (Hnd : NoDup (map date [prior_day]))
    by (apply (bool_decide_unpack _); vm_compute; reflexivity).
  assert (Hin : prior_day ∈ [prior_day]) by (simpl; left).
  assert (Hdate : is_date_string (date prior_day) = true) by reflexivity.
  assert (Hno : forall r, r ∈ [report_android; report_ios] ->
            extractDate (timestamp r) <> Some (date prior_day)).
  { intros r Hr. apply elem_of_cons in Hr as [->|Hr];
      [|apply list_elem_of_singleton in Hr as ->]; vm_compute; discriminate. }
  split; [exact Hnd|split; [exact Hin|split; [exact Hdate|split; [exact Hno|]]]].
  exact (C1_preservation [report_android; report_ios] [prior_day]
           "2026-02-19T00:00:00Z" prior_day Hnd Hin Hdate Hno).
Defined.

Lemma C2_witness :
  (exists r, r ∈ [report_android; report_ios] /\
             extractDate (timestamp r) = Some "2026-02-18") /\
  entry_for "2026-02-18" [prior_day; prior_day_18] = Some prior_day_18 /\
  fresh_day "2026-02-18" [report_android; report_ios] <> prior_day_18 /\
  exists h, fst (main (MPresent [report_android; report_ios])
                      (HParsed (Some [prior_day; prior_day_18]))
                      "2026-02-19T00:00:00Z") = Written h /\
            entry_for "2026-02-18" (entries h) =
            Some (fresh_day "2026-02-18" [report_android; report_ios]).
Proof.
  assert (Hr : exists r, r ∈ [report_android; report_ios] /\
                         extractDate (timestamp r) = Some "2026-02-18").
  { exists report_android. split; [left|reflexivity]. }
  split; [exact Hr|]. split; [reflexivity|]. split.
  { intros H. apply (f_equal totals) in H. vm_compute in H. discriminate H. }
  exact (C2_overwrite [report_android; report_ios]
           (HParsed (Some [prior_day; prior_day_18]))
           "2026-02-19T00:00:00Z" "2026-02-18" Hr).
Defined.

Lemma C3_witness :
  records_on "2026-02-18" [report_android; report_ios] <> [] /\
  exists day, aggregate [report_android; report_ios] !! "2026-02-18" = Some day /\
    totals day = stat_of (records_on "2026-02-18" [report_android; report_ios]) /\
    (forall t, platforms day !! t =
       match on_platform t (records_on "2026-02-18" [report_android; report_ios]) with
       | [] => None
       | sel => Some (stat_of sel)
       end) /\
    (forall t s, environments day !! t = Some s ->
       s = stat_of (on_env t (records_on "2026-02-18" [report_android; report_ios]))).
Proof.
  assert (Hne : records_on "2026-02-18" [report_android; report_ios] <> [])
    by (vm_compute; discriminate).
  split; [exact Hne|].
  exact (C3_sum_correctness [report_android; report_ios] "2026-02-18" Hne).
Defined.

Lemma C8_witness :
  js_parseInt (JStr "7abc") = Some 7 /\
  extractDate (timestamp report_no_date) = None /\
  aggregate ([report_android] ++ report_no_date :: [report_ios]) =
    aggregate ([report_android] ++ [report_ios]) /\
  js_parseInt (passed report_partial_number) = Some 7 /\
  aggregate ([report_android] ++ report_partial_number :: [report_ios]) =
    aggregate ([report_android] ++ with_passed (JNum 7) report_partial_number :: [report_ios]) /\
  js_parseInt (failed report_partial_number) = Some 0 /\
  aggregate ([report_android] ++ report_partial_number :: [report_ios]) =
    aggregate ([report_android] ++ with_failed (JNum 0) report_partial_number :: [report_ios]) /\
  js_parseInt (passed report_unreadable) = None /\
  aggregate ([report_android] ++ report_unreadable :: [report_ios]) =
    aggregate ([report_android] ++ with_passed (JNum 0) report_unreadable :: [report_ios]) /\
  js_parseInt (failed report_unreadable) = None /\
  aggregate ([report_android] ++ report_unreadable :: [report_ios]) =
    aggregate ([report_android] ++ with_failed (JNum 0) report_unreadable :: [report_ios]) /\
  extractDate (timestamp report_unreadable) = Some "2026-02-18" /\
  List.length (records_on "2026-02-18"
                 ([report_android] ++ report_unreadable :: [report_ios])) = 3%nat /\
  exists day,
    aggregate ([report_android] ++ report_unreadable :: [report_ios]) !! "2026-02-18" = Some day /\
    runs (totals day) =
      Z.of_nat (List.length (records_on "2026-02-18"
                               ([report_android] ++ report_unreadable :: [report_ios]))).
Proof.
  destruct (C8_malformed_fields_amended [report_android] [report_ios] report_no_date)
    as (H7 & Hdrop & _).
  destruct (C8_malformed_fields_amended [report_android] [report_ios] report_partial_number)
    as (_ & _ & Hp & _ & Hf & _).
  destruct (C8_malformed_fields_amended [report_android] [report_ios] report_unreadable)
    as (_ & _ & _ & Hp0 & _ & Hf0 & Hruns).
  split; [exact H7|]. split; [reflexivity|]. split; [exact (Hdrop eq_refl)|].
  split; [reflexivity|]. split; [exact (Hp 7 eq_refl)|].
  split; [reflexivity|]. split; [exact (Hf 0 eq_refl)|].
  split; [reflexivity|]. split; [exact (Hp0 eq_refl)|].
  split; [reflexivity|]. split; [exact (Hf0 eq_refl)|].
  split; [reflexivity|]. split; [reflexivity|].
  exact (Hruns "2026-02-18" eq_refl).
Defined.

End Witnesses.

(* ================================================================= *)
(** ** The [.metadata] rewrite of the reconciler *)

Module MetaFacts.
Import JsString FixStats TextShape.

Lemma append_cons (c : ascii) (a b : string) :
  (String c a ++ b)%string = String c (a ++ b).
Proof. reflexivity. Qed.

Lemma string_app_nil_r (s : string) : (s ++ "")%string = s.
Proof.
  induction s as [|c s IH]; [reflexivity|]. by rewrite append_cons, IH.
Qed.

Lemma no_terminator_app (a b : string) :
  no_terminator (a ++ b) = no_terminator a && no_terminator b.
Proof.
  induction a as [|c a IH]; [reflexivity|].
  rewrite append_cons. simpl. by rewrite IH, andb_assoc.
Qed.

Lemma startsWith_app (pre v : string) : startsWith pre (pre ++ v) = true.
Proof.
  induction pre as [|c pre IH]; [reflexivity|].
  rewrite append_cons. simpl. by rewrite Ascii.eqb_refl, IH.
Qed.

Lemma drop_prefix_app (pre v : string) : drop_prefix pre (pre ++ v) = v.
Proof.
  induction pre as [|c pre IH]; [by destruct v|].
  rewrite append_cons. exact IH.
Qed.

(** Two strings that both start with [k1] and [k2]: one key is a prefix
    of the other. *)
Lemma startsWith_both (k1 k2 x : string) :
  startsWith k1 x = true -> startsWith k2 x = true ->
  startsWith k1 k2 = true \/ startsWith k2 k1 = true.
Proof.
  revert k2 x. induction k1 as [|c k1 IH]; intros k2 x H1 H2; [by left|].
  destruct k2 as [|e k2]; [by right|].
  destruct x as [|d x]; [discriminate|].
  simpl in H1, H2. apply andb_prop in H1 as [Hc H1].
  apply andb_prop in H2 as [He H2].
  apply Ascii.eqb_eq in Hc, He. subst.
  destruct (IH k2 x H1 H2) as [H|H]; [left|right]; simpl;
    by rewrite Ascii.eqb_refl, H.
Qed.

Lemma lines_of_wf (s : string) : wf_lines (lines_of s).
Proof.
  induction s as [|c s IH]; simpl; [by split|].
  destruct (is_line_terminator c) eqn:Hc; simpl.
  - by split; [|split].
  - destruct (lines_of s) as [|[l t] rest]; [contradiction|].
    destruct IH as [Hl Ht]. simpl. rewrite Hc, Hl. by split.
Qed.

Lemma unlines_lines_of (s : string) : unlines (lines_of s) = s.
Proof.
  induction s as [|c s IH]; [reflexivity|]. simpl.
  destruct (is_line_terminator c); simpl; [by rewrite IH|].
  destruct (lines_of s) as [|[l [t|]] rest]; simpl in *;
    rewrite ?append_cons; [by subst|by rewrite IH|by rewrite IH].
Qed.

Lemma lines_of_app_line (l r l' : string) t rest :
  no_terminator l = true -> lines_of r = (l', t) :: rest ->
  lines_of (l ++ r) = ((l ++ l')%string, t) :: rest.
Proof.
  intros Hl Hr. induction l as [|c l IH]; [exact Hr|].
  simpl in Hl. apply andb_prop in Hl as [Hc Hl].
  apply negb_true_iff in Hc. rewrite !append_cons. simpl.
  rewrite Hc, (IH Hl). reflexivity.
Qed.

Lemma lines_of_unlines (ls : list (string * option ascii)) :
  wf_lines ls -> lines_of (unlines ls) = ls.
Proof.
  induction ls as [|[l t] rest IH]; simpl; [done|].
  intros [Hl Ht]. destruct t as [c|].
  - destruct Ht as [Hc Hw].
    rewrite (lines_of_app_line l _ "" (Some c) rest Hl).
    + by rewrite string_app_nil_r.
    + simpl. rewrite Hc, (IH Hw). reflexivity.
  - subst rest. simpl.
    rewrite (lines_of_app_line l "" "" None [] Hl); [|reflexivity].
    by rewrite string_app_nil_r.
Qed.

Lemma replace_line_wf (key v : string) ls :
  no_terminator key = true -> no_terminator v = true ->
  wf_lines ls -> wf_lines (replace_line key v ls).
Proof.
  intros Hk Hv. induction ls as [|[l t] rest IH]; simpl; [done|].
  intros [Hl Ht]. destruct (startsWith key l); simpl.
  - rewrite no_terminator_app, Hk, Hv. by split.
  - split; [exact Hl|]. destruct t; [|by subst].
    destruct Ht as [Hc Hw]. split; [exact Hc|exact (IH Hw)].
Qed.

Lemma find_replace_same (key v : string) ls :
  find_line key (replace_line key v ls) = option_map (fun _ => v) (find_line key ls).
Proof.
  induction ls as [|[l t] rest IH]; simpl; [reflexivity|].
  destruct (startsWith key l) eqn:Hl; simpl.
  - by rewrite startsWith_app, drop_prefix_app.
  - by rewrite Hl.
Qed.

Lemma replace_line_absent (key v : string) ls :
  find_line key ls = None -> replace_line key v ls = ls.
Proof.
  induction ls as [|[l t] rest IH]; simpl; [done|].
  destruct (startsWith key l); [discriminate|]. intros H. by rewrite IH.
Qed.

Lemma find_replace_other (k1 k2 v : string) ls :
  startsWith k1 k2 = false -> startsWith k2 k1 = false ->
  find_line k2 (replace_line k1 v ls) = find_line k2 ls.
Proof.
  intros H12 H21.
  assert (Hx : forall x, startsWith k1 x = true -> startsWith k2 x = false).
  { intros x H1. destruct (startsWith k2 x) eqn:H2; [|reflexivity].
    destruct (startsWith_both k1 k2 x H1 H2) as [H|H]; congruence. }
  induction ls as [|[l t] rest IH]; simpl; [reflexivity|].
  destruct (startsWith k1 l) eqn:H1; simpl.
  - by rewrite (Hx _ (startsWith_app k1 v)), (Hx _ H1).
  - destruct (startsWith k2 l); [reflexivity|exact IH].
Qed.

Lemma meta_replace_same (key v s : string) :
  no_terminator key = true -> no_terminator v = true ->
  meta_match key (meta_replace key v s) = option_map (fun _ => v) (meta_match key s).
Proof.
  intros Hk Hv. unfold meta_match, meta_replace.
  rewrite lines_of_unlines; [apply find_replace_same|].
  apply replace_line_wf; [exact Hk|exact Hv|apply lines_of_wf].
Qed.

Lemma meta_replace_other (k1 k2 v s : string) :
  no_terminator k1 = true -> no_terminator v = true ->
  startsWith k1 k2 = false -> startsWith k2 k1 = false ->
  meta_match k2 (meta_replace k1 v s) = meta_match k2 s.
Proof.
  intros Hk Hv H12 H21. unfold meta_match, meta_replace.
  rewrite lines_of_unlines; [by apply find_replace_other|].
  apply replace_line_wf; [exact Hk|exact Hv|apply lines_of_wf].
Qed.

(** *** Printed numbers *)

Lemma digit_char_not_terminator (d : Z) :
  0 <= d < 10 -> is_line_terminator (digit_char d) = false.
Proof.
  intros Hd.
  assert (d = 0 \/ d = 1 \/ d = 2 \/ d = 3 \/ d = 4 \/ d = 5 \/ d = 6 \/
          d = 7 \/ d = 8 \/ d = 9) as Hc by lia.
  repeat destruct Hc as [->|Hc]; try reflexivity; subst; reflexivity.
Qed.

Lemma pos_digits_no_terminator fuel (n : Z) (acc : string) :
  no_terminator acc = true -> no_terminator (pos_digits fuel n acc) = true.
Proof.
  revert n acc. induction fuel as [|fuel IH]; intros n acc Hacc; simpl; [exact Hacc|].
  assert (Hs : no_terminator (String (digit_char (n mod 10)) acc) = true).
  { simpl. rewrite digit_char_not_terminator, Hacc; [reflexivity|].
    apply Z.mod_pos_bound. lia. }
  destruct (n / 10 =? 0); [exact Hs|exact (IH _ _ Hs)].
Qed.

Lemma pos_digits_nonempty fuel (n : Z) (acc : string) :
  acc <> "" -> pos_digits fuel n acc <> "".
Proof.
  revert n acc. induction fuel as [|fuel IH]; intros n acc Hacc; simpl; [exact Hacc|].
  destruct (n / 10 =? 0); [discriminate|apply IH; discriminate].
Qed.

Lemma z_to_string_no_terminator (z : Z) : no_terminator (z_to_string z) = true.
Proof.
  unfold z_to_string, nat_to_string.
  destruct (z <? 0).
  - cbn [no_terminator]. rewrite pos_digits_no_terminator; reflexivity.
  - apply pos_digits_no_terminator. reflexivity.
Qed.

Lemma z_to_string_nonempty (z : Z) : z_to_string z <> "".
Proof.
  unfold z_to_string, nat_to_string.
  destruct (z <? 0); [discriminate|]. simpl.
  destruct (z / 10 =? 0); [discriminate|apply pos_digits_nonempty; discriminate].
Qed.

End MetaFacts.

(* ================================================================= *)
(** ** Properties of the reconciler's per-folder step *)

Module FixFacts.
Import JsString Reconcile FixStats TextShape MetaFacts.

Lemma meta_replace_absent (key v s : string) :
  meta_match key s = None -> meta_replace key v s = s.
Proof.
  unfold meta_match, meta_replace. intros H.
  rewrite (replace_line_absent _ _ _ H). apply unlines_lines_of.
Qed.

Lemma meta_value_of (key v s : string) :
  meta_match key s = Some v -> v <> "" -> meta_value key s = v.
Proof.
  unfold meta_value. intros -> Hv.
  destruct (String.eqb_spec v ""); [contradiction|reflexivity].
Qed.

Lemma updateMetadata_reads_all (m : string) (p f t : Z) :
  meta_match "TOTAL=" (updateMetadata m p f t) =
    option_map (fun _ => z_to_string t) (meta_match "TOTAL=" m) /\
  meta_match "PASSED=" (updateMetadata m p f t) =
    option_map (fun _ => z_to_string p) (meta_match "PASSED=" m) /\
  meta_match "FAILED=" (updateMetadata m p f t) =
    option_map (fun _ => z_to_string f) (meta_match "FAILED=" m).
Proof.
  unfold updateMetadata.
  pose proof (z_to_string_no_terminator p) as Hp.
  pose proof (z_to_string_no_terminator f) as Hf.
  pose proof (z_to_string_no_terminator t) as Ht.
  split; [|split].
  - rewrite !meta_replace_other by (assumption || reflexivity).
    by rewrite meta_replace_same.
  - rewrite meta_replace_other by (assumption || reflexivity).
    rewrite meta_replace_same by (assumption || reflexivity).
    by rewrite meta_replace_other.
  - rewrite meta_replace_same by (assumption || reflexivity).
    by rewrite !meta_replace_other.
Qed.

(** X1: [updateMetadata] rewrites the [TOTAL=], [PASSED=] and [FAILED=]
    lines the file has to the printed new counts, as read back by the
    regexes of lines 106-108, and adds none the file lacks. *)
Theorem updateMetadata_reads (m : string) (p f t : Z) :
  meta_match "TOTAL=" (updateMetadata m p f t) =
    option_map (fun _ => z_to_string t) (meta_match "TOTAL=" m) /\
  meta_match "PASSED=" (updateMetadata m p f t) =
    option_map (fun _ => z_to_string p) (meta_match "PASSED=" m) /\
  meta_match "FAILED=" (updateMetadata m p f t) =
    option_map (fun _ => z_to_string f) (meta_match "FAILED=" m).
Proof. exact (updateMetadata_reads_all m p f t). Qed.

(** X2: Any other key whose line the regexes tell apart from those three
    (neither key a prefix of the other) reads the same after
    [updateMetadata]. *)
Theorem updateMetadata_other_keys (m k : string) (p f t : Z) :
  startsWith k "TOTAL=" = false -> startsWith "TOTAL=" k = false ->
  startsWith k "PASSED=" = false -> startsWith "PASSED=" k = false ->
  startsWith k "FAILED=" = false -> startsWith "FAILED=" k = false ->
  meta_match k (updateMetadata m p f t) = meta_match k m.
Proof.
  intros H1 H2 H3 H4 H5 H6. unfold updateMetadata.
  rewrite !meta_replace_other; try assumption; try reflexivity;
    apply z_to_string_no_terminator.
Qed.

(** X3: A [.metadata] file with none of the three lines is written back
    byte for byte. *)
Theorem updateMetadata_no_lines (m : string) (p f t : Z) :
  meta_match "TOTAL=" m = None -> meta_match "PASSED=" m = None ->
  meta_match "FAILED=" m = None ->
  updateMetadata m p f t = m.
Proof.
  intros Ht Hp Hf. unfold updateMetadata.
  rewrite (meta_replace_absent "TOTAL=" _ m Ht).
  rewrite (meta_replace_absent "PASSED=" _ m Hp).
  exact (meta_replace_absent "FAILED=" _ m Hf).
Qed.

(** X4: A second run finds a fixed folder unchanged: once [.metadata] holds
    the three lines and was rewritten with the summary's counts, the
    folder (renamed or not) is counted as unchanged, in a dry run too. *)
Theorem fix_then_unchanged (dry_run : bool) (folder : string)
    (summary : SummaryFile) (m : string) (counts : Counts) :
  countFromSummary summary = Some counts ->
  meta_match "TOTAL=" m <> None -> meta_match "PASSED=" m <> None ->
  meta_match "FAILED=" m <> None ->
  process_folder dry_run folder summary
    (Some (updateMetadata m (c_passed counts) (c_failed counts) (c_total counts)))
  = FolderUnchanged.
Proof.
  intros Hc Ht Hp Hf. unfold process_folder. rewrite Hc.
  destruct (updateMetadata_reads_all m (c_passed counts) (c_failed counts)
              (c_total counts)) as (Rt & Rp & Rf).
  destruct (meta_match "TOTAL=" m) as [a|]; [|by destruct Ht].
  destruct (meta_match "PASSED=" m) as [b|]; [|by destruct Hp].
  destruct (meta_match "FAILED=" m) as [c|]; [|by destruct Hf].
  simpl in Rt, Rp, Rf.
  rewrite (meta_value_of _ _ _ Rp (z_to_string_nonempty _)).
  rewrite (meta_value_of _ _ _ Rf (z_to_string_nonempty _)).
  rewrite (meta_value_of _ _ _ Rt (z_to_string_nonempty _)).
  by rewrite !String.eqb_refl.
Qed.

End FixFacts.

(* ================================================================= *)
(** ** Folder names: [split('__')], [join('__')] and the rename *)

Module FolderFacts.
Import JsString FixStats TextShape MetaFacts.

Lemma string_app_assoc (a b c : string) : ((a ++ b) ++ c)%string = (a ++ (b ++ c))%string.
Proof.
  induction a as [|x a IH]; [reflexivity|]. by rewrite !append_cons, IH.
Qed.

Lemma split_cons2 (c c2 : ascii) (r : string) :
  split_dunder (String c (String c2 r)) =
  if Ascii.eqb c "_" && Ascii.eqb c2 "_" then "" :: split_dunder r
  else push_char c (split_dunder (String c2 r)).
Proof. reflexivity. Qed.

Lemma push_char_nonempty c parts : push_char c parts <> [].
Proof. by destruct parts. Qed.

Lemma split_nonempty (s : string) : split_dunder s <> [].
Proof.
  destruct s as [|c [|c2 r]]; [discriminate|apply push_char_nonempty|].
  rewrite split_cons2. destruct (_ && _); [discriminate|apply push_char_nonempty].
Qed.

Lemma join_push c parts :
  parts <> [] -> join_dunder (push_char c parts) = String c (join_dunder parts).
Proof. destruct parts as [|x [|y xs]]; [done|reflexivity|reflexivity]. Qed.

Lemma join_cons2 (x y : string) xs :
  join_dunder (x :: y :: xs) = (x ++ "__" ++ join_dunder (y :: xs))%string.
Proof. reflexivity. Qed.

Lemma join_split_pair (s : string) :
  join_dunder (split_dunder s) = s /\
  forall c, join_dunder (split_dunder (String c s)) = String c s.
Proof.
  induction s as [|c2 r [IH1 IH2]]; [by split|].
  split; [exact (IH2 c2)|]. intros c. rewrite split_cons2.
  destruct (Ascii.eqb c "_" && Ascii.eqb c2 "_") eqn:E.
  - apply andb_prop in E as [E1 E2].
    apply Ascii.eqb_eq in E1, E2. subst.
    destruct (split_dunder r) as [|y ys] eqn:Hs; [by destruct (split_nonempty r)|].
    rewrite join_cons2, IH1. reflexivity.
  - rewrite join_push by apply split_nonempty. by rewrite IH2.
Qed.

Lemma join_split (s : string) : join_dunder (split_dunder s) = s.
Proof. apply join_split_pair. Qed.

(** The first part of a name cut in several is followed by ["__"]. *)
Lemma split_first_part (s y : string) ys :
  split_dunder s = y :: ys -> ys <> [] ->
  exists t, s = (y ++ "__" ++ t)%string.
Proof.
  intros Hs Hne. rewrite <- (join_split s), Hs.
  destruct ys as [|z zs]; [done|]. rewrite join_cons2. eauto.
Qed.

(** A good part followed by ["__"] is cut there. *)
Lemma split_good_part (x r : string) :
  good_part x -> split_dunder (x ++ "__" ++ r) = x :: split_dunder r.
Proof.
  induction x as [|c x IH]; intros [Hd He]; [reflexivity|].
  rewrite append_cons. simpl in Hd. apply andb_prop in Hd as [Hc Hd].
  destruct x as [|c2 x].
  - change ("" ++ "__" ++ r)%string with (String "_" (String "_" r)).
    simpl in He. rewrite split_cons2, He. reflexivity.
  - rewrite append_cons, split_cons2.
    destruct (Ascii.eqb c "_" && Ascii.eqb c2 "_") eqn:E.
    + apply andb_prop in E as [E1 E2].
      apply Ascii.eqb_eq in E1, E2. subst. discriminate.
    + rewrite <- append_cons, IH; [reflexivity|]. split; [exact Hd|exact He].
Qed.

Lemma removelast_push c y ys :
  removelast (push_char c (y :: ys)) =
  match ys with [] => [] | _ :: _ => String c y :: removelast ys end.
Proof. destruct ys; reflexivity. Qed.

(** Every part but the last of a cut name is good. *)
Lemma split_parts_good_pair (s : string) :
  Forall good_part (removelast (split_dunder s)) /\
  forall c, Forall good_part (removelast (split_dunder (String c s))).
Proof.
  induction s as [|c2 r [IH1 IH2]]; [split; [constructor|intros c; constructor]|].
  split; [exact (IH2 c2)|]. intros c. rewrite split_cons2.
  destruct (Ascii.eqb c "_" && Ascii.eqb c2 "_") eqn:E.
  - destruct (split_dunder r) as [|y ys] eqn:Hs; [by destruct (split_nonempty r)|].
    change (removelast ("" :: y :: ys)) with ("" :: removelast (y :: ys)).
    constructor; [by split|exact IH1].
  - pose proof (IH2 c2) as H2.
    destruct (split_dunder (String c2 r)) as [|y ys] eqn:Hs;
      [by destruct (split_nonempty (String c2 r))|].
    rewrite removelast_push. destruct ys as [|z zs]; [constructor|].
    change (removelast (y :: z :: zs)) with (y :: removelast (z :: zs)) in H2.
    apply Forall_cons in H2 as [[Hyd Hye] Hrest].
    constructor; [|exact Hrest].
    destruct (split_first_part _ _ _ Hs ltac:(discriminate)) as [t Ht].
    destruct y as [|d y].
    + change ("" ++ "__" ++ t)%string with (String "_" (String "_" t)) in Ht.
      injection Ht as Hc2 _. subst c2.
      rewrite Ascii.eqb_refl, andb_true_r in E.
      split; simpl; rewrite ?E; reflexivity.
    + rewrite append_cons in Ht. injection Ht as Hd _. subst d.
      split; [|exact Hye].
      change (no_dunder (String c (String c2 y))) with
        (negb (Ascii.eqb c "_" && startsWith "_" (String c2 y)) &&
         no_dunder (String c2 y)).
      rewrite Hyd, andb_true_r.
      destruct (Ascii.eqb c "_") eqn:Ec; [|reflexivity].
      change (startsWith "_" (String c2 y)) with (Ascii.eqb "_" c2 && startsWith "" y).
      rewrite Ascii.eqb_sym. simpl in E. rewrite E. reflexivity.
Qed.

Lemma split_no_dunder (s : string) : no_dunder s = true -> split_dunder s = [s].
Proof.
  induction s as [|c s IH]; intros Hd; [reflexivity|].
  destruct s as [|c2 r]; [reflexivity|].
  change (no_dunder (String c (String c2 r))) with
    (negb (Ascii.eqb c "_" && startsWith "_" (String c2 r)) &&
     no_dunder (String c2 r)) in Hd.
  apply andb_prop in Hd as [Hc Hd]. rewrite split_cons2.
  destruct (Ascii.eqb c "_" && Ascii.eqb c2 "_") eqn:E.
  - apply andb_prop in E as [E1 E2].
    apply Ascii.eqb_eq in E1, E2. subst. simpl in Hc. discriminate.
  - by rewrite (IH Hd).
Qed.

Lemma split_join_good (init : list string) (t : string) :
  Forall good_part init -> split_dunder t = [t] ->
  split_dunder (join_dunder (init ++ [t])%list) = (init ++ [t])%list.
Proof.
  intros Hg Ht. induction Hg as [|a init Ha Hg IH]; [exact Ht|].
  simpl app. destruct (init ++ [t])%list as [|b rest] eqn:E; [by destruct init|].
  rewrite join_cons2, split_good_part by exact Ha. by rewrite IH.
Qed.

(** *** Printed counts and the status tag *)

Lemma digit_char_not_underscore (d : Z) :
  0 <= d < 10 -> Ascii.eqb (digit_char d) "_" = false.
Proof.
  intros Hd.
  assert (d = 0 \/ d = 1 \/ d = 2 \/ d = 3 \/ d = 4 \/ d = 5 \/ d = 6 \/
          d = 7 \/ d = 8 \/ d = 9) as Hc by lia.
  repeat destruct Hc as [->|Hc]; try reflexivity; subst; reflexivity.
Qed.

Lemma pos_digits_no_underscore fuel (n : Z) (acc : string) :
  no_underscore acc = true -> no_underscore (pos_digits fuel n acc) = true.
Proof.
  revert n acc. induction fuel as [|fuel IH]; intros n acc Hacc; simpl; [exact Hacc|].
  assert (Hs : no_underscore (String (digit_char (n mod 10)) acc) = true).
  { simpl. rewrite digit_char_not_underscore, Hacc; [reflexivity|].
    apply Z.mod_pos_bound. lia. }
  destruct (n / 10 =? 0); [exact Hs|exact (IH _ _ Hs)].
Qed.

Lemma z_to_string_no_underscore (z : Z) : no_underscore (z_to_string z) = true.
Proof.
  unfold z_to_string, nat_to_string.
  destruct (z <? 0).
  - cbn [no_underscore]. rewrite pos_digits_no_underscore; reflexivity.
  - apply pos_digits_no_underscore. reflexivity.
Qed.

Lemma no_underscore_parts (s : string) :
  no_underscore s = true ->
  no_dunder s = true /\ ends_underscore s = false /\ startsWith "_" s = false.
Proof.
  induction s as [|c s IH]; [done|]. intros H.
  change (no_underscore (String c s)) with
    (negb (Ascii.eqb c "_") && no_underscore s) in H.
  apply andb_prop in H as [Hc H]. apply negb_true_iff in Hc.
  destruct (IH H) as (H1 & H2 & H3). split; [|split].
  - change (no_dunder (String c s)) with
      (negb (Ascii.eqb c "_" && startsWith "_" s) && no_dunder s).
    by rewrite Hc, H1.
  - destruct s; [exact Hc|exact H2].
  - change (startsWith "_" (String c s)) with (Ascii.eqb "_" c && startsWith "" s).
    by rewrite Ascii.eqb_sym, Hc.
Qed.

Lemma no_dunder_app (a b : string) :
  no_dunder a = true -> no_dunder b = true ->
  ends_underscore a = false \/ startsWith "_" b = false ->
  no_dunder (a ++ b) = true.
Proof.
  induction a as [|c a IH]; intros Ha Hb Hj; [exact Hb|].
  rewrite append_cons.
  change (no_dunder (String c (a ++ b))) with
    (negb (Ascii.eqb c "_" && startsWith "_" (a ++ b)) && no_dunder (a ++ b)).
  change (no_dunder (String c a)) with
    (negb (Ascii.eqb c "_" && startsWith "_" a) && no_dunder a) in Ha.
  apply andb_prop in Ha as [Hc Ha].
  destruct a as [|c2 a].
  - change (("" ++ b)%string) with b.
    change (ends_underscore (String c "")) with (Ascii.eqb c "_") in Hj.
    rewrite Hb, andb_true_r.
    destruct Hj as [Hj|Hj]; rewrite Hj; [reflexivity|by rewrite andb_false_r].
  - rewrite IH; [|exact Ha|exact Hb|exact Hj].
    rewrite append_cons, andb_true_r. exact Hc.
Qed.

Lemma startsWith_char_app (c : ascii) (a b : string) :
  a <> "" -> startsWith (String c "") (a ++ b) = startsWith (String c "") a.
Proof. destruct a; [done|reflexivity]. Qed.

Lemma includes_app_r (a s n : string) :
  includes s n = true -> includes (a ++ s) n = true.
Proof.
  intros H. induction a as [|c a IH]; [exact H|].
  rewrite append_cons. simpl. rewrite IH. apply orb_true_r.
Qed.

Lemma includes_self_app (n b : string) : includes (n ++ b) n = true.
Proof.
  destruct (n ++ b)%string eqn:E; simpl; rewrite <- E, startsWith_app; reflexivity.
Qed.

Lemma statusTag_parts (p f : Z) :
  split_dunder (statusTag p f) = [statusTag p f] /\
  includes (statusTag p f) "passed" = true.
Proof.
  destruct (no_underscore_parts _ (z_to_string_no_underscore p)) as (Pd & Pe & Ps).
  destruct (no_underscore_parts _ (z_to_string_no_underscore f)) as (Fd & Fe & Fs).
  unfold statusTag. destruct (0 <? f).
  - split.
    + apply split_no_dunder. apply no_dunder_app; [exact Pd| |left; exact Pe].
      apply no_dunder_app; [reflexivity| |right].
      2: rewrite startsWith_char_app; [exact Fs|apply z_to_string_nonempty].
      apply no_dunder_app; [exact Fd|reflexivity|left; exact Fe].
    + apply includes_app_r.
      exact (includes_self_app "passed" ("_" ++ (z_to_string f ++ "failed"))).
  - split.
    + apply split_no_dunder. apply no_dunder_app; [exact Pd|reflexivity|left; exact Pe].
    + apply includes_app_r. rewrite <- (string_app_nil_r "passed").
      apply includes_self_app.
Qed.

End FolderFacts.

(* ================================================================= *)
(** ** Properties of the renames *)

Module RenameFacts.
Import JsString Reconcile FixStats TextShape MetaFacts FolderFacts.

Lemma collect_renames_olds (actions : list (string * FolderAction)) :
  NoDup (map fst actions) ->
  NoDup (map old_name (collect_renames actions)) /\
  forall x, x ∈ map old_name (collect_renames actions) -> x ∈ map fst actions.
Proof.
  induction actions as [|[f a] rest IH]; intros Hnd; [split; [constructor|set_solver]|].
  simpl in Hnd. apply NoDup_cons in Hnd as [Hf Hnd].
  destruct (IH Hnd) as [H1 H2].
  unfold collect_renames. simpl.
  destruct a as [| |meta [n|]]; simpl; fold (collect_renames rest);
    try (split; [exact H1|intros x Hx; right; exact (H2 x Hx)]).
  split.
  - constructor; [|exact H1]. intros Hin. exact (Hf (H2 f Hin)).
  - intros x Hx. apply elem_of_cons in Hx as [->|Hx]; [left|right; exact (H2 x Hx)].
Qed.

Lemma apply_renames_total (dir : gset string) (rs : list Rename) :
  NoDup (map old_name rs) -> Forall (fun r => old_name r ∈ dir) rs ->
  exists dir', apply_renames dir rs = Some dir' /\ size dir' = size dir.
Proof.
  revert dir. induction rs as [|r rs IH]; intros dir Hnd Hin; [by exists dir|].
  simpl in Hnd. apply NoDup_cons in Hnd as [Hr Hnd].
  apply Forall_cons in Hin as [Ho Hin]. simpl.
  case_bool_decide as Hn; [by apply IH|].
  rewrite bool_decide_true by exact Ho.
  destruct (IH ({[new_name r]} ∪ (dir ∖ {[old_name r]})) Hnd) as (d' & Hd' & Hs).
  - apply Forall_forall. intros r' Hr'.
    assert (old_name r' <> old_name r).
    { intros Heq. apply Hr. rewrite <- Heq. by apply list_elem_of_fmap_2. }
    rewrite Forall_forall in Hin. pose proof (Hin r' Hr'). set_solver.
  - exists d'. split; [exact Hd'|]. rewrite Hs.
    rewrite size_union by set_solver.
    rewrite size_singleton, size_difference by set_solver.
    rewrite size_singleton.
    assert (1 <= size dir)%nat.
    { rewrite <- (size_singleton (C := gset string) (old_name r)).
      apply subseteq_size. set_solver. }
    lia.
Qed.

Lemma reconcile_actions_names dry_run
    (folders : list (string * SummaryFile * option string)) :
  map fst (map (fun '(f, sm, m) => (f, process_folder dry_run f sm m)) folders) =
  map (fun x => x.1.1) folders.
Proof. induction folders as [|[[f sm] m] rest IH]; simpl; [reflexivity|by rewrite IH]. Qed.

(** X7: [parts.join('__')] undoes [name.split('__')]: cutting a folder name
    and joining the parts back gives the name unchanged. *)
Theorem split_join_roundtrip (s : string) : join_dunder (split_dunder s) = s.
Proof. apply join_split. Qed.

(** X8: A rename keeps every [__] part of the folder name but the last, which
    contained ["passed"] and becomes the new status tag; the new name's
    last part contains ["passed"] again, so a later run renames it too. *)
Theorem rename_replaces_tag (folder n : string) (p f : Z) :
  rename_target folder (statusTag p f) = Some n ->
  includes (List.last (split_dunder folder) "") "passed" = true /\
  split_dunder n = (removelast (split_dunder folder) ++ [statusTag p f])%list /\
  includes (List.last (split_dunder n) "") "passed" = true.
Proof.
  unfold rename_target. destruct (includes _ "passed") eqn:Hl; [|discriminate].
  intros Hn. injection Hn as <-.
  destruct (statusTag_parts p f) as [Ht Hp].
  assert (Hs : split_dunder (join_dunder (removelast (split_dunder folder) ++
                 [statusTag p f])%list) =
               (removelast (split_dunder folder) ++ [statusTag p f])%list).
  { apply split_join_good; [apply split_parts_good_pair|exact Ht]. }
  split; [reflexivity|split; [exact Hs|]].
  rewrite Hs, last_last. exact Hp.
Qed.

(** X9: The deferred renames never throw and never change the number of
    entries of the reports directory, when the folders are distinct
    entries of it (as [readdirSync] gives them). *)
Theorem reconcile_renames_total (dry_run : bool) (dir : gset string)
    (folders : list (string * SummaryFile * option string)) :
  NoDup (map (fun x => x.1.1) folders) ->
  Forall (fun x => x.1.1 ∈ dir) folders ->
  exists dir', (reconcile dry_run dir folders).2 = Some dir' /\ size dir' = size dir.
Proof.
  intros Hnd Hin. unfold reconcile. simpl.
  destruct dry_run; [by exists dir|].
  set (actions := map (fun '(f, sm, m) => (f, process_folder false f sm m)) folders).
  assert (Hnames : map fst actions = map (fun x => x.1.1) folders)
    by apply reconcile_actions_names.
  rewrite <- Hnames in Hnd.
  destruct (collect_renames_olds actions Hnd) as [H1 H2].
  apply apply_renames_total; [exact H1|].
  apply Forall_forall. intros r Hr.
  assert (Ho : old_name r ∈ map fst actions)
    by (apply H2; by apply list_elem_of_fmap_2).
  rewrite Hnames in Ho. apply list_elem_of_fmap in Ho as (x & -> & Hx).
  rewrite Forall_forall in Hin. exact (Hin x Hx).
Qed.

(** X10: A dry run ([--dry-run]) gives each folder the outcome of a real
    run (skipped, unchanged or fixed) but writes no [.metadata], renames
    nothing and leaves the reports directory as it is. *)
Theorem dry_run_preview (dir : gset string)
    (folders : list (string * SummaryFile * option string)) :
  (reconcile true dir folders).1 =
    map (fun fa => (fa.1, FixViews.preview_of fa.2)) (reconcile false dir folders).1 /\
  (reconcile true dir folders).2 = Some dir.
Proof.
  unfold reconcile. cbn [fst snd]. split; [|reflexivity].
  induction folders as [|[[f sm] m] rest IH]; [reflexivity|].
  cbn [map]. rewrite IH. f_equal. cbn [fst snd]. f_equal.
  unfold process_folder. destruct (countFromSummary sm); [|reflexivity].
  destruct m; cbn zeta;
    match goal with |- context [if ?b then _ else _] => destruct b end; reflexivity.
Qed.

End RenameFacts.

(* ================================================================= *)
(** ** Further properties of the aggregator *)

Module AggregateFacts.
Import JsString Classify Stats Views SpecSide MergeFacts SumFacts.

Lemma add_to_stat_comm s p1 f1 p2 f2 :
  add_to_stat (add_to_stat s p1 f1) p2 f2 = add_to_stat (add_to_stat s p2 f2) p1 f1.
Proof. unfold add_to_stat. simpl. f_equal; lia. Qed.

Lemma bump_lookup_ne k k' p f m :
  k <> k' -> bump k p f m !! k' = m !! k'.
Proof.
  intros Hne. unfold bump. destruct (m !! k); [by apply lookup_insert_ne|].
  destruct (js_inherited k); [done|by apply lookup_insert_ne].
Qed.

(** Two updates of a breakdown commute. *)
Lemma bump_comm k1 k2 p1 f1 p2 f2 m :
  bump k1 p1 f1 (bump k2 p2 f2 m) = bump k2 p2 f2 (bump k1 p1 f1 m).
Proof.
  destruct (decide (k1 = k2)) as [<-|Hne].
  - unfold bump. destruct (m !! k1) as [s|] eqn:Hm.
    + rewrite !lookup_insert_eq, !insert_insert_eq. by rewrite add_to_stat_comm.
    + destruct (js_inherited k1) eqn:Hi.
      * by rewrite Hm.
      * rewrite !lookup_insert_eq, !insert_insert_eq. by rewrite add_to_stat_comm.
  - assert (H1 : bump k2 p2 f2 m !! k1 = m !! k1) by (apply bump_lookup_ne; congruence).
    assert (H2 : bump k1 p1 f1 m !! k2 = m !! k2) by (apply bump_lookup_ne; congruence).
    unfold bump at 1. rewrite H1. symmetry. unfold bump at 1. rewrite H2.
    symmetry. unfold bump.
    destruct (m !! k1), (m !! k2), (js_inherited k1), (js_inherited k2);
      try reflexivity; by apply insert_insert_ne.
Qed.

Lemma add_record_comm day r1 r2 :
  add_record (add_record day r1) r2 = add_record (add_record day r2) r1.
Proof.
  unfold add_record. simpl. f_equal; [apply add_to_stat_comm|apply bump_comm|apply bump_comm].
Qed.

(** Two steps of [manifest.forEach] commute. *)
Lemma aggregate_step_comm m r1 r2 :
  aggregate_step (aggregate_step m r1) r2 = aggregate_step (aggregate_step m r2) r1.
Proof.
  unfold aggregate_step.
  destruct (extractDate (timestamp r1)) as [d1|], (extractDate (timestamp r2)) as [d2|];
    try reflexivity.
  destruct (decide (d1 = d2)) as [<-|Hne].
  - rewrite !lookup_insert_eq, !insert_insert_eq. cbn [default id].
    by rewrite add_record_comm.
  - rewrite !lookup_insert_ne by congruence. by apply insert_insert_ne.
Qed.

Lemma fold_steps_perm l1 l2 :
  Permutation l1 l2 ->
  forall m, fold_left aggregate_step l1 m = fold_left aggregate_step l2 m.
Proof.
  induction 1 as [|r l1 l2 _ IH|r1 r2 l|l1 l2 l3 _ IH1 _ IH2]; intros m; simpl.
  - reflexivity.
  - apply IH.
  - by rewrite aggregate_step_comm.
  - by rewrite IH1, IH2.
Qed.

Lemma environments_fresh_lookup_full d manifest t :
  environments (fresh_day d manifest) !! t =
  if js_inherited t then None
  else match on_env t (records_on d manifest) with
       | [] => None
       | sel => Some (stat_of sel)
       end.
Proof.
  unfold fresh_day. rewrite environments_fold. simpl.
  destruct (js_inherited t) eqn:Ht.
  - by rewrite bump_fold_inherited by done.
  - rewrite bump_fold_own by done. rewrite fold_option_stat.
    unfold on_env. destruct (List.filter _ _); [done|].
    rewrite lookup_empty. cbn [default]. by rewrite stat_of_fold.
Qed.

Lemma existing_is_Some l m k :
  is_Some (fold_left set_existing l m !! k) <->
  is_Some (m !! k) \/ (k <> "__proto__" /\ k ∈ map date l).
Proof.
  revert m. induction l as [|e l IH]; intros m; simpl.
  - split; [by left|]. intros [H|[_ H]]; [exact H|by apply elem_of_nil in H].
  - rewrite IH. unfold set_existing. rewrite elem_of_cons.
    destruct (String.eqb_spec (date e) "__proto__") as [Hp|Hp].
    + naive_solver.
    + rewrite lookup_insert_is_Some'. naive_solver.
Qed.

Lemma aggregate_is_Some manifest d :
  is_Some (aggregate manifest !! d) <->
  exists r, r ∈ manifest /\ extractDate (timestamp r) = Some d.
Proof.
  rewrite aggregate_lookup.
  destruct (records_on d manifest) as [|r rs] eqn:Hrs.
  - pose proof (proj1 (records_on_nil d manifest) Hrs) as Hno.
    split; [by intros []|].
    intros (r & Hr & Hd). destruct (Hno r Hr Hd).
  - split; [intros _|intros _; by eexists].
    assert (Hr : r ∈ records_on d manifest) by (rewrite Hrs; left).
    unfold records_on in Hr. apply list_elem_of_In, filter_In in Hr as [Hr Hd].
    exists r. split; [by apply list_elem_of_In|]. by apply bool_decide_eq_true in Hd.
Qed.

End AggregateFacts.

Module AggregateExtras.
Import JsString Classify Stats Views SpecSide MergeFacts SumFacts AggregateFacts.

(** X11: The order of the records in [manifest.json] matters only for the
    order of the tags inside each day's [platforms] and [environments]
    objects: a run on any reordering of the manifest writes the same dates,
    the same totals and the same counters for each tag, and prints the
    same lines. *)
Theorem main_manifest_order (l1 l2 : list ReportRecord) (hist : HistoryFile)
    (now : string) :
  Permutation l1 l2 ->
  main (MPresent l1) hist now = main (MPresent l2) hist now.
Proof.
  intros HP. unfold main. destruct (read_history hist) as [prior hlog].
  assert (Hagg : aggregate l1 = aggregate l2)
    by (unfold aggregate; by apply fold_steps_perm).
  by rewrite Hagg, (Permutation_length HP).
Qed.

(** X12: The environment breakdown of a day: a tag that is a property of
    [Object.prototype] never gets an entry; any other tag has one exactly
    when some record of the day normalises to it, holding the count and
    the sums of those records. *)
Theorem aggregate_environments (manifest : list ReportRecord) (d t : string)
    (day : DayEntry) :
  aggregate manifest !! d = Some day ->
  environments day !! t =
  if js_inherited t then None
  else match on_env t (records_on d manifest) with
       | [] => None
       | sel => Some (stat_of sel)
       end.
Proof.
  rewrite aggregate_lookup. destruct (records_on d manifest) as [|r rs] eqn:E;
    [discriminate|].
  intros [= <-]. by rewrite environments_fresh_lookup_full, E.
Qed.

(** X13: The dates written are those of the prior history, but for a prior
    entry dated [__proto__], together with the dates of the manifest. *)
Theorem written_dates (manifest : list ReportRecord) (prior : list DayEntry)
    (now : string) :
  exists es,
    written_entries (main (MPresent manifest) (HParsed (Some prior)) now) = Some es /\
    forall d, d ∈ map date es <->
      (d <> "__proto__" /\ d ∈ map date prior) \/
      exists r, r ∈ manifest /\ extractDate (timestamp r) = Some d.
Proof.
  eexists. split; [unfold written_entries; rewrite main_present; reflexivity|].
  intros d. cbn [fst read_history entries].
  destruct (keyed_run manifest prior) as [Hk _].
  rewrite merged_entries_dates by exact Hk. rewrite sorted_keys_elem.
  unfold merge. rewrite lookup_union_is_Some. unfold existing_map.
  rewrite existing_is_Some, aggregate_is_Some, lookup_empty.
  split; [intros [H|[H|H]]; [by right|by inversion H|by left]|].
  intros [H|H]; [right; right; exact H|left; exact H].
Qed.

(** X14: [extractDate] returns the [YYYY-MM-DD] prefix of the timestamp. *)
Theorem extractDate_prefix (ts : option string) (d : string) :
  extractDate ts = Some d ->
  is_date_string d = true /\
  exists s rest, ts = Some s /\ s = (d ++ rest)%string.
Proof.
  unfold extractDate. destruct ts as [s|]; [|discriminate].
  destruct (String.eqb s ""); [discriminate|].
  destruct (date_prefix_ok s) eqn:Hp; [|discriminate]. intros [= <-].
  destruct s as [|c1 [|c2 [|c3 [|c4 [|c5 [|c6 [|c7 [|c8 [|c9 [|c10 rest]]]]]]]]]];
    try discriminate Hp.
  assert (Hs : substring 0 0 rest = "") by (destruct rest; reflexivity).
  cbn [substring]. rewrite Hs.
  split.
  - unfold is_date_string. apply andb_true_intro. split; [exact Hp|reflexivity].
  - exists (String c1 (String c2 (String c3 (String c4 (String c5 (String c6
      (String c7 (String c8 (String c9 (String c10 rest)))))))))), rest.
    split; reflexivity.
Qed.

End AggregateExtras.

(* ================================================================= *)
(** ** Classifiers and number printing *)

Module ClassifyFacts.
Import JsString Classify.

Lemma lower_ascii_idem (c : ascii) : lower_ascii (lower_ascii c) = lower_ascii c.
Proof.
  unfold lower_ascii. cbv zeta.
  destruct (Nat.leb 65 (nat_of_ascii c) && Nat.leb (nat_of_ascii c) 90) eqn:E.
  - apply andb_prop in E as [E1 E2]. apply Nat.leb_le in E1, E2.
    rewrite Ascii.nat_ascii_embedding by lia.
    replace (Nat.leb 65 (nat_of_ascii c + 32) && Nat.leb (nat_of_ascii c + 32) 90)
      with false; [reflexivity|].
    symmetry. apply andb_false_intro2. apply Nat.leb_gt. lia.
  - by rewrite E.
Qed.

Lemma toLowerCase_idem (s : string) : toLowerCase (toLowerCase s) = toLowerCase s.
Proof.
  induction s as [|c s IH]; [reflexivity|]. cbn [toLowerCase].
  by rewrite lower_ascii_idem, IH.
Qed.

(** X15: The classifiers are stable: classifying a tag they produced gives the
    same tag back. *)
Theorem classifiers_idempotent (j e : option string) :
  detectPlatform (Some (detectPlatform j)) = detectPlatform j /\
  normalizeEnv (Some (normalizeEnv e)) = normalizeEnv e.
Proof.
  split.
  - assert (Hp : forall x, x = "android" \/ x = "ios" \/ x = "browser" \/ x = "other" ->
                 detectPlatform (Some x) = x)
      by (intros x [->|[->|[->| ->]]]; reflexivity).
    apply Hp. unfold detectPlatform.
    repeat match goal with |- context [if ?b then _ else _] => destruct b end;
      auto.
  - unfold normalizeEnv at 2 3. set (x := toLowerCase (default "" e)).
    assert (Hx : toLowerCase x = x) by apply toLowerCase_idem.
    destruct (includes x "sandbox") eqn:H1; [reflexivity|].
    destruct (includes x "staging") eqn:H2; [reflexivity|].
    destruct (includes x "flux") eqn:H3; [reflexivity|].
    destruct (includes x "local") eqn:H4; [reflexivity|].
    destruct (String.eqb x "") eqn:H5; [reflexivity|].
    unfold normalizeEnv. cbn [default id]. by rewrite Hx, H1, H2, H3, H4, H5.
Qed.

End ClassifyFacts.

Module ParseFacts.
Import JsString ParseInt Reconcile FixStats SpecSide MetaFacts.

Lemma digit_char_digit (d : Z) :
  0 <= d < 10 ->
  is_digit (digit_char d) = true /\ digit_value 10 (digit_char d) = Some d.
Proof.
  intros Hd.
  assert (d = 0 \/ d = 1 \/ d = 2 \/ d = 3 \/ d = 4 \/ d = 5 \/ d = 6 \/
          d = 7 \/ d = 8 \/ d = 9) as Hc by lia.
  repeat destruct Hc as [->|Hc]; try (split; reflexivity); subst; split; reflexivity.
Qed.

Lemma pos_digits_read fuel :
  forall (n : Z) (acc : string), 0 <= n < 10 ^ Z.of_nat (S fuel) ->
  exists m, forall a sn,
    read_digits 10 a sn (pos_digits (S fuel) n acc) = read_digits 10 (a * m + n) true acc.
Proof.
  induction fuel as [|fuel IH]; intros n acc Hn;
    (assert (Hd : 0 <= n mod 10 < 10) by (apply Z.mod_pos_bound; lia));
    destruct (digit_char_digit _ Hd) as [_ Hv];
    pose proof (Z.div_mod n 10 ltac:(lia)) as Hdm; cbn [pos_digits].
  - assert (H0 : n / 10 = 0) by (apply Z.div_small; simpl in Hn; lia).
    exists 10. intros a sn. rewrite H0. cbn [Z.eqb read_digits]. rewrite Hv.
    f_equal. lia.
  - destruct (Z.eqb_spec (n / 10) 0) as [H0|H0].
    + exists 10. intros a sn. cbn [read_digits]. rewrite Hv. f_equal. lia.
    + assert (Hb : 0 <= n / 10 < 10 ^ Z.of_nat (S fuel)).
      { split; [apply Z.div_pos; lia|]. apply Z.div_lt_upper_bound; [lia|].
        rewrite <- Z.pow_succ_r by lia. rewrite <- Nat2Z.inj_succ. lia. }
      destruct (IH (n / 10) (String (digit_char (n mod 10)) acc) Hb) as [m Hm].
      exists (10 * m). intros a sn. rewrite Hm. cbn [read_digits]. rewrite Hv.
      f_equal. nia.
Qed.

Lemma nat_to_string_read (n : Z) :
  0 <= n -> read_digits 10 0 false (nat_to_string n) = Some n.
Proof.
  intros Hn. unfold nat_to_string.
  assert (Hb : 0 <= n < 10 ^ Z.of_nat (S (Z.to_nat (Z.log2 n)))).
  { split; [exact Hn|].
    pose proof (Z.log2_nonneg n) as Hl.
    rewrite Nat2Z.inj_succ, Z2Nat.id by exact Hl.
    destruct (Z.eq_dec n 0) as [->|Hnz]; [apply Z.pow_pos_nonneg; lia|].
    destruct (Z.log2_spec n ltac:(lia)) as [_ H2].
    eapply Z.lt_le_trans; [exact H2|]. apply Z.pow_le_mono_l. lia. }
  destruct (pos_digits_read _ n "" Hb) as [m Hm].
  rewrite Hm. reflexivity.
Qed.

Lemma pos_digits_all_digits fuel (n : Z) (acc : string) :
  all_digits acc = true -> all_digits (pos_digits fuel n acc) = true.
Proof.
  revert n acc. induction fuel as [|fuel IH]; intros n acc Hacc; cbn [pos_digits];
    [exact Hacc|].
  assert (Hs : all_digits (String (digit_char (n mod 10)) acc) = true).
  { cbn [all_digits]. rewrite Hacc, andb_true_r. apply digit_char_digit.
    apply Z.mod_pos_bound. lia. }
  destruct (n / 10 =? 0); [exact Hs|exact (IH _ _ Hs)].
Qed.

Lemma nat_to_string_nonempty (n : Z) : nat_to_string n <> "".
Proof.
  unfold nat_to_string. cbn [pos_digits].
  destruct (n / 10 =? 0); [discriminate|apply pos_digits_nonempty; discriminate].
Qed.

(** [parseInt] on decimal digits, with or without a minus sign. *)
Lemma parseInt_digits (s : string) :
  all_digits s = true -> s <> "" ->
  parseInt_string s = option_map (Z.mul 1) (read_digits 10 0 false s) /\
  parseInt_string (String "-" s) = option_map (Z.mul (-1)) (read_digits 10 0 false s).
Proof.
  destruct s as [|c r]; [done|]. intros Hd _. cbn [all_digits] in Hd.
  apply andb_prop in Hd as [Hc Hr].
  split; destruct c as [[] [] [] [] [] [] [] []];
    try (vm_compute in Hc; discriminate Hc); try reflexivity;
    destruct r as [|c2 r]; try reflexivity;
    destruct c2 as [[] [] [] [] [] [] [] []]; try reflexivity;
    vm_compute in Hr; discriminate Hr.
Qed.

Lemma js_parseInt_z_to_string (z : Z) : js_parseInt (JStr (z_to_string z)) = Some z.
Proof.
  unfold js_parseInt, z_to_string.
  pose proof (pos_digits_all_digits (S (Z.to_nat (Z.log2 (- z)))) (- z) "" eq_refl).
  pose proof (pos_digits_all_digits (S (Z.to_nat (Z.log2 z))) z "" eq_refl).
  destruct (Z.ltb_spec z 0) as [Hz|Hz].
  - destruct (parseInt_digits (nat_to_string (- z))) as [_ ->];
      [assumption|apply nat_to_string_nonempty|].
    rewrite nat_to_string_read by lia. simpl. f_equal. lia.
  - destruct (parseInt_digits (nat_to_string z)) as [-> _];
      [assumption|apply nat_to_string_nonempty|].
    rewrite nat_to_string_read by lia. simpl. f_equal. lia.
Qed.

(** X6: [parseInt] reads back what [String(n)] printed. *)
Theorem parseInt_z_to_string (z : Z) : js_parseInt (JStr (z_to_string z)) = Some z.
Proof. exact (js_parseInt_z_to_string z). Qed.

(** X5: The folder is only renamed when the status tag read from
    [.metadata] differs from the new one: when its [PASSED=] and
    [FAILED=] lines already hold the new counts, a fix never renames,
    whatever the folder is called. *)
Theorem fix_keeps_name (dry_run : bool) (folder : string) (summary : SummaryFile)
    (m : string) (counts : Counts) (upd : option string) (r : option string) :
  countFromSummary summary = Some counts ->
  meta_value "PASSED=" m = z_to_string (c_passed counts) ->
  meta_value "FAILED=" m = z_to_string (c_failed counts) ->
  process_folder dry_run folder summary (Some m) = FolderFix upd r -> r = None.
Proof.
  intros Hc Hp Hf. unfold process_folder. rewrite Hc. cbv beta iota zeta.
  rewrite Hp, Hf. destruct (_ && _ && _); [discriminate|].
  destruct dry_run; [by intros [= _ <-]|].
  unfold parseIntOrZero. rewrite !js_parseInt_z_to_string, String.eqb_refl.
  by intros [= _ <-].
Qed.

End ParseFacts.

(* ================================================================= *)
(** ** [generate-manifest.sh]: the job field and the JSON string fields *)

Module ManifestFacts.
Import JsString FixStats TextShape MetaFacts FolderFacts ManifestGen.





Lemma replace_char_app (c : ascii) (rep a b : string) :
  replace_char c rep (a ++ b) = (replace_char c rep a ++ replace_char c rep b)%string.
Proof.
  induction a as [|d a IH]; [reflexivity|].
  rewrite append_cons. cbn [replace_char].
  destruct (Ascii.eqb d c); rewrite IH; [by rewrite string_app_assoc|reflexivity].
Qed.

Lemma sed_json_escape_cons (d : ascii) (s : string) :
  sed_json_escape (String d s) =
  ((if Ascii.eqb d backslash then String backslash (String backslash "")
    else if Ascii.eqb d dquote then String backslash (String dquote "")
    else String d "") ++ sed_json_escape s)%string.
Proof.
  unfold sed_json_escape. cbn [replace_char].
  destruct (Ascii.eqb d backslash) eqn:E1.
  - rewrite replace_char_app. reflexivity.
  - cbn [replace_char]. destruct (Ascii.eqb d dquote); reflexivity.
Qed.



(** X18: An escaped field (branch, pipeline URL, job URL) with no control
    character is read back by [JSON.parse] as exactly that text, ending at
    the closing quote. *)
Theorem json_escape_roundtrip (s rest : string) :
  no_control s = true ->
  json_string_body (sed_json_escape s ++ String dquote rest) = Some (s, rest).
Proof.
  induction s as [|d s IH]; intros H; [reflexivity|].
  cbn [no_control] in H. apply andb_prop in H as [Hc H].
  rewrite sed_json_escape_cons.
  destruct (Ascii.eqb d backslash) eqn:E1.
  - apply Ascii.eqb_eq in E1. subst d.
    change ((String backslash (String backslash "") ++ sed_json_escape s) ++ String dquote rest)%string
      with (String backslash (String backslash (sed_json_escape s ++ String dquote rest))).
    cbn [json_string_body]. rewrite IH by exact H. reflexivity.
  - destruct (Ascii.eqb d dquote) eqn:E2.
    + apply Ascii.eqb_eq in E2. subst d.
      change ((String backslash (String dquote "") ++ sed_json_escape s) ++ String dquote rest)%string
        with (String backslash (String dquote (sed_json_escape s ++ String dquote rest))).
      cbn [json_string_body]. rewrite IH by exact H. reflexivity.
    + change ((String d "" ++ sed_json_escape s) ++ String dquote rest)%string
        with (String d (sed_json_escape s ++ String dquote rest)).
      cbn [json_string_body]. rewrite E1, E2. apply negb_true_iff in Hc. rewrite Hc.
      rewrite IH by exact H. reflexivity.
Qed.


(** *** The counts [generate-manifest.sh] reads after a fix *)

















(** *** Lines 33-35 and 50-52: from a [.metadata] path to the job *)

















End ManifestFacts.

(* ================================================================= *)
(** ** Witnesses of the properties above *)

Module ExtraWitnesses.
Import JsString Classify Stats Reconcile FixStats TextShape Samples FixSamples Views
  FixFacts RenameFacts AggregateExtras ParseFacts ManifestGen ManifestFacts.

Lemma updateMetadata_other_keys_witness :
  startsWith "TIMESTAMP=" "TOTAL=" = false /\ startsWith "TOTAL=" "TIMESTAMP=" = false /\
  meta_match "TIMESTAMP=" (updateMetadata meta_stale 12 3 15) =
  meta_match "TIMESTAMP=" meta_stale.
Proof.
  split; [reflexivity|split; [reflexivity|]].
  apply updateMetadata_other_keys; reflexivity.
Defined.

Lemma updateMetadata_no_lines_witness :
  meta_match "TOTAL=" meta_no_counts = None /\
  updateMetadata meta_no_counts 12 3 15 = meta_no_counts.
Proof.
  split; [reflexivity|].
  apply updateMetadata_no_lines; reflexivity.
Defined.

Lemma fix_then_unchanged_witness :
  countFromSummary summary_12_3 = Some counts_12_3 /\
  process_folder false folder_stale summary_12_3 (Some meta_stale) <> FolderUnchanged /\
  process_folder false "2026-02-18_143000__android-smoke__staging__main__12passed_3failed"
    summary_12_3 (Some (updateMetadata meta_stale 12 3 15)) = FolderUnchanged.
Proof.
  split; [reflexivity|split; [vm_compute; discriminate|]].
  apply (fix_then_unchanged false _ summary_12_3 meta_stale counts_12_3);
    [reflexivity|vm_compute; discriminate..].
Defined.

Lemma rename_replaces_tag_witness :
  rename_target folder_stale (statusTag 12 3) =
    Some "2026-02-18_143000__android-smoke__staging__main__12passed_3failed" /\
  split_dunder "2026-02-18_143000__android-smoke__staging__main__12passed_3failed" =
    (removelast (split_dunder folder_stale) ++ [statusTag 12 3])%list.
Proof.
  split; [reflexivity|].
  apply (rename_replaces_tag folder_stale _ 12 3). reflexivity.
Defined.

Lemma reconcile_renames_total_witness :
  exists dir', (reconcile false reports_dir
                  [(folder_other, SAbsent, None);
                   (folder_stale, summary_12_3, Some meta_stale)]).2 = Some dir' /\
               size dir' = size reports_dir.
Proof.
  apply reconcile_renames_total.
  - simpl. apply NoDup_cons. split; [|apply NoDup_singleton].
    rewrite list_elem_of_singleton. unfold folder_other, folder_stale. discriminate.
  - repeat constructor; simpl; unfold reports_dir; set_solver.
Defined.

Lemma main_manifest_order_witness :
  Permutation [report_android; report_ios] [report_ios; report_android] /\
  main (MPresent [report_android; report_ios]) HAbsent "2026-02-19T00:00:00Z" =
  main (MPresent [report_ios; report_android]) HAbsent "2026-02-19T00:00:00Z".
Proof.
  assert (HP : Permutation [report_android; report_ios] [report_ios; report_android])
    by apply perm_swap.
  split; [exact HP|]. exact (main_manifest_order _ _ HAbsent _ HP).
Defined.

Lemma aggregate_environments_witness :
  aggregate [report_constructor_env] !! "2026-02-18" =
    Some (fresh_day "2026-02-18" [report_constructor_env]) /\
  environments (fresh_day "2026-02-18" [report_constructor_env]) !! "constructor" = None.
Proof.
  assert (H : aggregate [report_constructor_env] !! "2026-02-18" =
              Some (fresh_day "2026-02-18" [report_constructor_env]))
    by (vm_compute; reflexivity).
  split; [exact H|].
  exact (aggregate_environments [report_constructor_env] "2026-02-18" "constructor" _ H).
Defined.

Lemma extractDate_prefix_witness :
  extractDate (Some "2026-02-18_143000") = Some "2026-02-18" /\
  SpecSide.is_date_string "2026-02-18" = true.
Proof.
  assert (H : extractDate (Some "2026-02-18_143000") = Some "2026-02-18") by reflexivity.
  split; [exact H|]. exact (proj1 (extractDate_prefix _ _ H)).
Defined.

Lemma fix_keeps_name_witness :
  process_folder false folder_stale summary_12_3 (Some meta_total_stale) =
    FolderFix (Some (updateMetadata meta_total_stale 12 3 15)) None /\
  (None : option string) = None.
Proof.
  assert (H : process_folder false folder_stale summary_12_3 (Some meta_total_stale) =
              FolderFix (Some (updateMetadata meta_total_stale 12 3 15)) None)
    by (vm_compute; reflexivity).
  split; [exact H|].
  exact (fix_keeps_name false folder_stale summary_12_3 meta_total_stale counts_12_3
           _ _ eq_refl eq_refl eq_refl H).
Defined.


Lemma json_escape_roundtrip_witness :
  no_control (String "a" (String dquote (String backslash "b"))) = true /\
  json_string_body (sed_json_escape (String "a" (String dquote (String backslash "b")))
                    ++ String dquote ",")
  = Some (String "a" (String dquote (String backslash "b")), ",").
Proof.
  split; [reflexivity|]. apply json_escape_roundtrip. reflexivity.
Defined.



End ExtraWitnesses.
